(** * Energy advisor: scheduling and day-simulation kernel

    A shallow embedding of [environment.py], [agent.py] and [utils.py].

    Modelling conventions:
    - Python floats are modelled as exact rationals [Q]; Python ints as [Z].
    - A Python [dict] is an association list in insertion order; a lookup
      of a missing key (a [KeyError]) is [None].
    - Operations that can raise return [option]; [None] is the exception.
    - Objects mutated in place ([Household], [Appliance], [HVACSystem]) are
      records threaded through the code as explicit state. *)

From Stdlib Require Import ZArith QArith Qminmax List String Bool Lia.
From Stdlib Require Import Permutation DecimalString.
Import ListNotations.

Open Scope Z_scope.

(** ** A small option monad for code that can raise *)

Definition obind {A B} (m : option A) (k : A -> option B) : option B :=
  match m with Some x => k x | None => None end.

Notation "x <- m ;; k" := (obind m (fun x => k))
  (at level 61, m at next level, right associativity).

(** ** Python helpers *)

(** [x < y] on floats. *)
Definition Qlt_bool (x y : Q) : bool := negb (Qle_bool y x).

(** [range(a, b)] *)
Definition py_range (a b : Z) : list Z :=
  map (fun k => a + Z.of_nat k) (seq 0 (Z.to_nat (b - a))).

(** [int(x)] on a float truncates toward zero. *)
Definition py_int (q : Q) : Z := Z.quot (Qnum q) (Zpos (Qden q)).

(** [lst[i]] on a Python list, negative indices counting from the end. *)
Definition py_index {A} (l : list A) (i : Z) : option A :=
  if 0 <=? i then nth_error l (Z.to_nat i)
  else if 0 <=? Z.of_nat (List.length l) + i
       then nth_error l (Z.to_nat (Z.of_nat (List.length l) + i))
       else None.

(** [d[k]] for a dict with integer keys. *)
Fixpoint dict_get {V} (d : list (Z * V)) (k : Z) : option V :=
  match d with
  | [] => None
  | (k', v) :: d' => if Z.eqb k k' then Some v else dict_get d' k
  end.

(** [d[k] = v]: overwrite in place, or append a new key at the end. *)
Fixpoint dict_set {V} (d : list (Z * V)) (k : Z) (v : V) : list (Z * V) :=
  match d with
  | [] => [(k, v)]
  | (k', v') :: d' =>
      if Z.eqb k k' then (k', v) :: d' else (k', v') :: dict_set d' k v
  end.

(** [d[k].append(x)] for a dict of lists: raises [KeyError] if [k] is absent. *)
Fixpoint dict_append {V} (d : list (Z * list V)) (k : Z) (x : V)
  : option (list (Z * list V)) :=
  match d with
  | [] => None
  | (k', vs) :: d' =>
      if Z.eqb k k' then Some ((k', vs ++ [x]) :: d')
      else r <- dict_append d' k x ;; Some ((k', vs) :: r)
  end.

(** ** Pricing table ([TOUPricing] in environment.py) *)

(** Body of the loop of [_create_pricing_schedule]: the price of [hour]
    for the profile selected by [pricing_type]; any name other than
    "standard" and "summer" takes the winter branch. *)
Definition band_price (pricing_type : string) (hour : Z) : Q :=
  if String.eqb pricing_type "standard"%string then
    if (0 <=? hour) && (hour <? 6) then 8 # 100
    else if (16 <=? hour) && (hour <? 21) then 32 # 100
    else 15 # 100
  else if String.eqb pricing_type "summer"%string then
    if (0 <=? hour) && (hour <? 6) then 9 # 100
    else if (14 <=? hour) && (hour <? 22) then 38 # 100
    else 17 # 100
  else
    if (0 <=? hour) && (hour <? 6) then 7 # 100
    else if (17 <=? hour) && (hour <? 20) then 28 # 100
    else 14 # 100.

(** [_create_pricing_schedule]: [prices = {}; for hour in range(24): prices[hour] = ...]. *)
Definition create_pricing_schedule (pricing_type : string) : list (Z * Q) :=
  fold_left (fun prices hour => dict_set prices hour (band_price pricing_type hour))
    (py_range 0 24) [].

Record TOUPricing := mkTOUPricing {
  pricingType : string;
  prices : list (Z * Q)
}.

Definition new_TOUPricing (pricing_type : string) : TOUPricing :=
  {| pricingType := pricing_type; prices := create_pricing_schedule pricing_type |}.

(** [get_price]: [self.prices[hour % 24]]; Python's [%] is floor modulo. *)
Definition get_price (t : TOUPricing) (hour : Z) : option Q :=
  dict_get (prices t) (hour mod 24).

(** ** Household state ([Appliance], [HVACSystem], [Household] in environment.py) *)

(** [Appliance] after [_appliance_init]; the object carries both
    [scheduledStart] and [scheduled_start]. *)
Record Appliance := mkAppliance {
  name : string;
  powerkW : Q;
  durationHours : Q;
  deadlineHour : Z;
  isFlexible : bool;
  isScheduled : bool;
  scheduledStart : option Z;
  scheduled_start : option Z
}.

(** [Appliance(name, powerkW, durationHours, deadlineHour, isFlexible)]. *)
Definition new_Appliance (n : string) (p d : Q) (dl : Z) (flex : bool) : Appliance :=
  {| name := n; powerkW := p; durationHours := d; deadlineHour := dl;
     isFlexible := flex; isScheduled := false;
     scheduledStart := None; scheduled_start := None |}.

(** [HVACSystem]; its [base_setpoint] property reads [setpoint], and its
    [powerkW] is named [hvac_powerkW] here. *)
Record HVACSystem := mkHVACSystem {
  currentTemp : Q;
  setpoint : Q;
  minTemp : Q;
  maxTemp : Q;
  hvac_powerkW : Q
}.

Definition default_HVACSystem : HVACSystem :=
  {| currentTemp := 72; setpoint := 72; minTemp := 68; maxTemp := 76;
     hvac_powerkW := 35 # 10 |}.

Definition is_comfortable (t : HVACSystem) : bool :=
  Qle_bool (minTemp t) (currentTemp t) && Qle_bool (currentTemp t) (maxTemp t).

Record Household := mkHousehold {
  monthlyBudget : Q;
  currentDay : Z;
  monthDays : Z;
  currentHour : Z;
  energyUsedToday : Q;
  energyUsedMonth : Q;
  todayCost : Q;
  monthCost : Q;
  tou_pricing : TOUPricing;
  hvac : HVACSystem;
  appliances : list Appliance;
  hourly_usage : list Q;
  hourly_costs : list Q
}.

(** [HouseholdEnvironment(monthlyBudget, pricingType, currentDay, monthDays)]
    followed by [add_appliance] for each appliance of [apps]. *)
Definition new_Household (budget : Q) (pricing_type : string) (day mdays : Z)
    (apps : list Appliance) : Household :=
  {| monthlyBudget := budget; currentDay := day; monthDays := mdays;
     currentHour := 0; energyUsedToday := 0; energyUsedMonth := 0;
     todayCost := 0; monthCost := 0;
     tou_pricing := new_TOUPricing pricing_type; hvac := default_HVACSystem;
     appliances := apps; hourly_usage := []; hourly_costs := [] |}.

(** [get_daily_budget]. *)
Definition get_daily_budget (st : Household) : Q :=
  let days_remaining := monthDays st - currentDay st + 1 in
  let budget_remaining := (monthlyBudget st - energyUsedMonth st)%Q in
  if days_remaining <=? 0 then 0%Q
  else (budget_remaining / inject_Z days_remaining)%Q.

(** [tou_prices]: [[self.tou_pricing.get_price(h) for h in range(24)]]. *)
Fixpoint map_opt {A B} (f : A -> option B) (l : list A) : option (list B) :=
  match l with
  | [] => Some []
  | x :: l' => y <- f x ;; ys <- map_opt f l' ;; Some (y :: ys)
  end.

Definition tou_prices (st : Household) : option (list Q) :=
  map_opt (get_price (tou_pricing st)) (py_range 0 24).

(** ** Day simulator ([simulate_day]) *)

(** A schedule: the dict hour -> list of appliance names, in insertion order. *)
Definition Schedule := list (Z * list string).

(** [lst[i] = v] on a Python list: raises [IndexError] out of range. *)
Definition py_set_index {A} (l : list A) (i : Z) (v : A) : option (list A) :=
  if (0 <=? i) && (i <? Z.of_nat (List.length l))
  then Some (firstn (Z.to_nat i) l ++ v :: skipn (S (Z.to_nat i)) l)
  else None.

(** Step 1: [a.isScheduled = False; a.scheduled_start = None; a.scheduledStart = None]. *)
Definition reset_appliance (a : Appliance) : Appliance :=
  {| name := name a; powerkW := powerkW a; durationHours := durationHours a;
     deadlineHour := deadlineHour a; isFlexible := isFlexible a;
     isScheduled := false; scheduledStart := None; scheduled_start := None |}.

Definition mark_scheduled (hour : Z) (a : Appliance) : Appliance :=
  {| name := name a; powerkW := powerkW a; durationHours := durationHours a;
     deadlineHour := deadlineHour a; isFlexible := isFlexible a;
     isScheduled := true; scheduledStart := Some hour; scheduled_start := Some hour |}.

(** Step 2, innermost loop: the first appliance named [n] is marked, then [break]. *)
Fixpoint assign_first (n : string) (hour : Z) (apps : list Appliance) : list Appliance :=
  match apps with
  | [] => []
  | a :: apps' =>
      if String.eqb (name a) n then mark_scheduled hour a :: apps'
      else a :: assign_first n hour apps'
  end.

(** Step 2: [for hour, names in schedule.items(): for name in names: ...]. *)
Definition apply_schedule (schedule : Schedule) (apps : list Appliance) : list Appliance :=
  fold_left (fun apps '(hour, names) =>
      fold_left (fun apps n => assign_first n hour apps) names apps)
    schedule apps.

(** The appliance loop of one hour: [usage += powerkW] for each appliance
    whose [[start, start + duration)] contains [h]; appliances with
    [start is None or not duration] are skipped ([continue]). *)
Definition appliance_usage (apps : list Appliance) (h : Z) (usage : Q) : Q :=
  fold_left (fun usage a =>
      match scheduled_start a with
      | None => usage
      | Some start =>
          if Qeq_bool (durationHours a) 0 then usage
          else if Qle_bool (inject_Z start) (inject_Z h)
                  && Qlt_bool (inject_Z h) (inject_Z start + durationHours a)
               then (usage + powerkW a)%Q
               else usage
      end) apps usage.

(** Local state of the hourly loop. *)
Record HourState := mkHourState {
  hs_hvac : HVACSystem;
  hs_comfort_violations : Z;
  hs_hourly_usage : list Q;
  hs_hourly_costs : list Q;
  hs_energy_today : Q;
  hs_today_cost : Q
}.

Definition set_hvac_temp (t : HVACSystem) (v : Q) : HVACSystem :=
  {| currentTemp := v; setpoint := v; minTemp := minTemp t; maxTemp := maxTemp t;
     hvac_powerkW := hvac_powerkW t |}.

(** One iteration [h] of [for h in range(24)]. *)
Definition hour_step (pricing : TOUPricing) (apps : list Appliance)
    (hvac_setpoints : list Q) (s : HourState) (h : Z) : option HourState :=
  t <- (if negb (Nat.eqb (List.length hvac_setpoints) 0)
           && (h <? Z.of_nat (List.length hvac_setpoints))
        then v <- py_index hvac_setpoints h ;; Some (set_hvac_temp (hs_hvac s) v)
        else Some (hs_hvac s)) ;;
  let cv := if negb (is_comfortable t) then hs_comfort_violations s + 1
            else hs_comfort_violations s in
  let usage := (appliance_usage apps h 0 + hvac_powerkW t)%Q in
  price <- get_price pricing h ;;
  let cost := (usage * price)%Q in
  hu <- py_set_index (hs_hourly_usage s) h usage ;;
  hc <- py_set_index (hs_hourly_costs s) h cost ;;
  Some {| hs_hvac := t; hs_comfort_violations := cv;
          hs_hourly_usage := hu; hs_hourly_costs := hc;
          hs_energy_today := (hs_energy_today s + usage)%Q;
          hs_today_cost := (hs_today_cost s + cost)%Q |}.

Fixpoint fold_opt {A B} (f : A -> B -> option A) (l : list B) (a : A) : option A :=
  match l with
  | [] => Some a
  | x :: l' => a' <- f a x ;; fold_opt f l' a'
  end.

(** Step 5: the deadline check for one appliance. *)
Definition misses_deadline (a : Appliance) : bool :=
  match scheduled_start a with
  | None => false
  | Some start =>
      if Qeq_bool (durationHours a) 0 then false
      else Qlt_bool (inject_Z (deadlineHour a)) (inject_Z start + durationHours a)
  end.

Definition count_missed (apps : list Appliance) : Z :=
  fold_left (fun n a => if misses_deadline a then n + 1 else n) apps 0.

(** The dict returned by [simulate_day]. *)
Record Metrics := mkMetrics {
  total_kwh : Q;
  total_cost : Q;
  m_hourly_usage : list Q;
  m_hourly_costs : list Q;
  comfort_violations : Z;
  missed_deadlines : Z;
  daily_budget_kwh : Q
}.

Definition simulate_day (st : Household) (schedule : Schedule) (hvac_setpoints : list Q)
  : option (Metrics * Household) :=
  let apps := apply_schedule schedule (map reset_appliance (appliances st)) in
  let s0 := {| hs_hvac := hvac st; hs_comfort_violations := 0;
               hs_hourly_usage := repeat 0%Q 24; hs_hourly_costs := repeat 0%Q 24;
               hs_energy_today := 0; hs_today_cost := 0 |} in
  s <- fold_opt (hour_step (tou_pricing st) apps hvac_setpoints) (py_range 0 24) s0 ;;
  let st' := {| monthlyBudget := monthlyBudget st; currentDay := currentDay st;
                monthDays := monthDays st; currentHour := currentHour st;
                energyUsedToday := hs_energy_today s;
                energyUsedMonth := (energyUsedMonth st + hs_energy_today s)%Q;
                todayCost := hs_today_cost s;
                monthCost := (monthCost st + hs_today_cost s)%Q;
                tou_pricing := tou_pricing st; hvac := hs_hvac s;
                appliances := apps;
                hourly_usage := hs_hourly_usage s; hourly_costs := hs_hourly_costs s |} in
  Some ({| total_kwh := energyUsedToday st'; total_cost := todayCost st';
           m_hourly_usage := hourly_usage st'; m_hourly_costs := hourly_costs st';
           comfort_violations := hs_comfort_violations s;
           missed_deadlines := count_missed apps;
           daily_budget_kwh := get_daily_budget st' |}, st').

(** ** Policies ([_baseline_policy], [_greedy_policy] in agent.py; the later
    definitions of the class body, which override the earlier ones) *)

(** [{h: [] for h in range(24)}]. *)
Definition empty_schedule : Schedule := map (fun h => (h, [])) (py_range 0 24).

(** [duration = max(1, int(a.duration_hours))]. *)
Definition eff_duration (a : Appliance) : Z := Z.max 1 (py_int (durationHours a)).

(** The loop of [_baseline_policy], threading [current_hour]. *)
Fixpoint baseline_loop (apps : list Appliance) (schedule : Schedule) (current_hour : Z)
  : option Schedule :=
  match apps with
  | [] => Some schedule
  | a :: apps' =>
      let duration := eff_duration a in
      let start_hour := current_hour in
      let end_hour := Z.min 24 (current_hour + duration) in
      schedule' <- dict_append schedule start_hour (name a) ;;
      baseline_loop apps' schedule' end_hour
  end.

Definition baseline_policy (st : Household) : option (Schedule * list Q) :=
  schedule <- baseline_loop (appliances st) empty_schedule 0 ;;
  Some (schedule, repeat (setpoint (hvac st)) 24).

(** [sorted(xs, key=k)]: a stable insertion sort. *)
Fixpoint insert_by {A} (le : A -> A -> bool) (x : A) (l : list A) : list A :=
  match l with
  | [] => [x]
  | y :: l' => if le x y then x :: y :: l' else y :: insert_by le x l'
  end.

Fixpoint sort_by {A} (le : A -> A -> bool) (l : list A) : list A :=
  match l with
  | [] => []
  | x :: l' => insert_by le x (sort_by le l')
  end.

(** [cost < best_cost] with [best_cost] starting at [float("inf")] ([None]). *)
Definition lt_best (cost : Q) (best_cost : option Q) : bool :=
  match best_cost with None => true | Some b => Qlt_bool cost b end.

(** [cost = 0.0; for h in range(start, end): cost += power * prices[h]]. *)
Definition window_cost (prices : list Q) (power : Q) (start end_ : Z) : option Q :=
  fold_opt (fun cost h => p <- py_index prices h ;; Some (cost + power * p)%Q)
    (py_range start end_) 0%Q.

(** One candidate [start] of the search loop, state [(best_start, best_cost)]. *)
Definition candidate_step (prices : list Q) (a : Appliance)
    (best : Z * option Q) (start : Z) : option (Z * option Q) :=
  let end_ := start + eff_duration a in
  if 24 <? end_ then Some best
  else
    cost <- window_cost prices (powerkW a) start end_ ;;
    if lt_best cost (snd best) then Some (start, Some cost) else Some best.

Definition latest_start (a : Appliance) : Z :=
  Z.max 0 (deadlineHour a - eff_duration a + 1).

(** The start chosen for one appliance: [best_start] after the search. *)
Definition choose_start (prices : list Q) (a : Appliance) : option Z :=
  best <- fold_opt (candidate_step prices a) (py_range 0 (latest_start a + 1)) (0, None) ;;
  Some (fst best).

(** [min(x, y)] in Python returns [x] unless [y < x]. *)
Definition py_min (x y : Q) : Q := if Qlt_bool y x then y else x.

(** [peak_threshold = sorted_prices[int(0.75 * len(sorted_prices))]]. *)
Definition peak_threshold (prices : list Q) : option Q :=
  let sorted_prices := sort_by Qle_bool prices in
  py_index sorted_prices (py_int ((3 # 4) * inject_Z (Z.of_nat (List.length sorted_prices)))).

(** The thermostat part of [_greedy_policy]. *)
Definition greedy_hvac (prices : list Q) (base max_t : Q) : option (list Q) :=
  thr <- peak_threshold prices ;;
  map_opt (fun h => p <- py_index prices h ;;
                    Some (if Qle_bool thr p then py_min max_t (base + 2)%Q else base))
    (py_range 0 24).

Definition greedy_policy (st : Household) : option (Schedule * list Q) :=
  prices <- tou_prices st ;;
  let appliances_sorted :=
    sort_by (fun a b => deadlineHour a <=? deadlineHour b) (appliances st) in
  schedule <- fold_opt (fun schedule a =>
                 best_start <- choose_start prices a ;;
                 dict_append schedule best_start (name a))
               appliances_sorted empty_schedule ;;
  sp <- greedy_hvac prices (setpoint (hvac st)) (maxTemp (hvac st)) ;;
  Some (schedule, sp).

(** [plan_day]: baseline, simulate, greedy, simulate, on the same household. *)
Record PlanResult := mkPlanResult {
  baseline_schedule : Schedule;
  baseline_hvac : list Q;
  baseline_metrics : Metrics;
  greedy_schedule : Schedule;
  greedy_hvac_sp : list Q;
  greedy_metrics : Metrics
}.

Definition plan_day (st : Household) : option (PlanResult * Household) :=
  b <- baseline_policy st ;; let (bs, bh) := b in
  r1 <- simulate_day st bs bh ;; let (bm, st1) := r1 in
  g <- greedy_policy st1 ;; let (gs, gh) := g in
  r2 <- simulate_day st1 gs gh ;; let (gm, st2) := r2 in
  Some ({| baseline_schedule := bs; baseline_hvac := bh; baseline_metrics := bm;
           greedy_schedule := gs; greedy_hvac_sp := gh; greedy_metrics := gm |}, st2).

(** ** Savings calculator ([compute_savings] in utils.py) *)

(** The Python values a metrics dict can hold under ["total_cost"]. *)
Inductive PyVal :=
| PyInt (z : Z)
| PyFloat (q : Q)
| PyBool (b : bool)
| PyStr (s : string)
| PyNone.

(** [isinstance(v, (int, float))]; [bool] is a subclass of [int]. *)
Definition is_number (v : PyVal) : bool :=
  match v with PyInt _ | PyFloat _ | PyBool _ => true | _ => false end.

Definition num_value (v : PyVal) : Q :=
  match v with
  | PyInt z => inject_Z z
  | PyFloat q => q
  | PyBool b => if b then 1 else 0
  | _ => 0
  end.

Fixpoint str_dict_get (d : list (string * PyVal)) (k : string) : PyVal :=
  match d with
  | [] => PyNone
  | (k', v) :: d' => if String.eqb k k' then v else str_dict_get d' k
  end.

Record Savings := mkSavings { absolute : Q; percent : Q }.

Definition compute_savings (baseline_m greedy_m : list (string * PyVal)) : Savings :=
  let bc := str_dict_get baseline_m "total_cost"%string in
  let gc := str_dict_get greedy_m "total_cost"%string in
  if negb (is_number bc) || negb (is_number gc) || Qle_bool (num_value bc) 0
  then {| absolute := 0; percent := 0 |}
  else let diff := (num_value bc - num_value gc)%Q in
       {| absolute := diff; percent := (diff / num_value bc * 100)%Q |}.

(** ** Spec-side readings used in the statements *)

(** The three pricing profiles named by the spec. *)
Inductive Profile := Standard | Summer | Winter.

Definition profile_name (p : Profile) : string :=
  match p with
  | Standard => "standard"%string
  | Summer => "summer"%string
  | Winter => "winter"%string
  end.

(** The bands of the spec, section 4.1, for an hour of the day [k]. *)
Definition spec_band (p : Profile) (k : Z) : Q :=
  match p with
  | Standard =>
      if (0 <=? k) && (k <? 6) then 8 # 100
      else if (16 <=? k) && (k <? 21) then 32 # 100 else 15 # 100
  | Summer =>
      if (0 <=? k) && (k <? 6) then 9 # 100
      else if (14 <=? k) && (k <? 22) then 38 # 100 else 17 # 100
  | Winter =>
      if (0 <=? k) && (k <? 6) then 7 # 100
      else if (17 <=? k) && (k <? 20) then 28 # 100 else 14 # 100
  end.

(** [price_at(h)] as the spec reads it: the band price of [h mod 24]. *)
Definition price_at (p : Profile) (h : Z) : Q := spec_band p (h mod 24).

(** Rational sum, [sum(...)]. *)
Definition qsum (l : list Q) : Q := fold_right Qplus 0%Q l.

(** The candidates of the spec, section 4.3: [start] in [[0, latest_start]]
    with [latest_start = max(0, deadline_hour - d + 1)] and [start + d <= 24]. *)
Definition spec_feasible (a : Appliance) (d s : Z) : Prop :=
  0 <= s <= Z.max 0 (deadlineHour a - d + 1) /\ s + d <= 24.

(** The spec's cost of a start: [power_kw * sum(price_at(h) for h in [start, start+d))]. *)
Definition spec_cost (p : Profile) (a : Appliance) (d s : Z) : Q :=
  (powerkW a * qsum (map (price_at p) (py_range s (s + d))))%Q.

(** The search loop of [choose_start] once every window cost is known:
    [f s] is the cost of start [s], [d] the duration. *)
Definition scan_step (f : Z -> Q) (d : Z) (best : Z * option Q) (s : Z) : Z * option Q :=
  if 24 <? s + d then best
  else if lt_best (f s) (snd best) then (s, Some (f s)) else best.

(** What the search state satisfies after the candidates [0 .. n-1]:
    either no candidate so far fits in the day and the state is the initial
    one, or it holds the earliest start of least cost among them. *)
Definition scan_inv (f : Z -> Q) (d : Z) (n : nat) (best : Z * option Q) : Prop :=
    (best = (0, None) /\ forall c, 0 <= c < Z.of_nat n -> 24 < c + d) \/
    (exists b, best = (b, Some (f b)) /\ 0 <= b < Z.of_nat n /\ b + d <= 24 /\
       (forall c, 0 <= c < Z.of_nat n -> c + d <= 24 -> (f b <= f c)%Q) /\
       (forall c, 0 <= c < Z.of_nat n -> c + d <= 24 -> (f c == f b)%Q -> b <= c)).

(** ** Concrete households ([default_appliances] and [make_default_env] in utils.py) *)

Definition dishwasher : Appliance := new_Appliance "Dishwasher" (12 # 10) 2 23 true.
Definition washer_dryer : Appliance := new_Appliance "Washer/Dryer" 2 3 21 true.
Definition ev_charger : Appliance := new_Appliance "EV Charger" 7 4 7 true.

Definition default_appliances : list Appliance := [dishwasher; washer_dryer; ev_charger].

Definition make_default_env (monthly_budget_kwh : Q) (pricing_type : string) : Household :=
  new_Household monthly_budget_kwh pricing_type 1 30 default_appliances.

(** A household whose appliances fill the whole day before the last one. *)
Definition full_day_household : Household :=
  new_Household 600 "standard" 1 30
    [new_Appliance "Pool pump" (3 # 2) 24 23 true;
     new_Appliance "Lamp" (1 # 10) 1 23 true].

(** A household that has used more than its monthly budget on day 1 of 30. *)
Definition over_budget_household : Household :=
  let st := new_Household 100 "standard" 1 30 default_appliances in
  {| monthlyBudget := monthlyBudget st; currentDay := currentDay st;
     monthDays := monthDays st; currentHour := currentHour st;
     energyUsedToday := energyUsedToday st; energyUsedMonth := 200;
     todayCost := todayCost st; monthCost := monthCost st;
     tou_pricing := tou_pricing st; hvac := hvac st; appliances := appliances st;
     hourly_usage := hourly_usage st; hourly_costs := hourly_costs st |}.

(** A schedule that starts each default appliance at a fixed hour. *)
Definition fixed_schedule : Schedule :=
  [(0, ["EV Charger"%string]); (10, ["Dishwasher"%string]); (15, ["Washer/Dryer"%string])].

(** The daily budget as section 8 of the spec states it. *)
Definition spec_daily_budget (st : Household) : Q :=
  Qmax 0 ((monthlyBudget st - energyUsedMonth st)
          / inject_Z (monthDays st - currentDay st + 1)).

(** The appliance fields that are configuration, not scheduling state. *)
Definition static_fields (a : Appliance) : string * Q * Q * Z * bool :=
  (name a, powerkW a, durationHours a, deadlineHour a, isFlexible a).

(** All names listed by a schedule. *)
Definition scheduled_names (schedule : Schedule) : list string :=
  List.concat (map snd schedule).

(** An appliance that runs longer than a day, alone in its household. *)
Definition long_pump : Appliance := new_Appliance "Pool pump" 30 30 23 true.

Definition long_run_household : Household :=
  new_Household 600 "standard" 1 30 [long_pump].

(** ** Further methods of environment.py *)

(** [Appliance.energy_required]: [powerkW * durationHours]. *)
Definition energy_required (a : Appliance) : Q := (powerkW a * durationHours a)%Q.

(** [Household.get_unscheduled_appliances]. *)
Definition get_unscheduled_appliances (st : Household) : list Appliance :=
  filter (fun a => negb (isScheduled a)) (appliances st).

(** [Household.schedule_appliance]: it sets [isScheduled] and the
    [scheduled_start] attribute of the object; [scheduledStart] keeps its value. *)
Definition schedule_appliance (a : Appliance) (start_hour : Z) : Appliance :=
  {| name := name a; powerkW := powerkW a; durationHours := durationHours a;
     deadlineHour := deadlineHour a; isFlexible := isFlexible a;
     isScheduled := true; scheduledStart := scheduledStart a;
     scheduled_start := Some start_hour |}.

(** The household whose list [self.appliances] now holds [apps] (the same
    objects, possibly mutated in place); every other attribute unchanged. *)
Definition with_appliances (st : Household) (apps : list Appliance) : Household :=
  {| monthlyBudget := monthlyBudget st; currentDay := currentDay st;
     monthDays := monthDays st; currentHour := currentHour st;
     energyUsedToday := energyUsedToday st; energyUsedMonth := energyUsedMonth st;
     todayCost := todayCost st; monthCost := monthCost st;
     tou_pricing := tou_pricing st; hvac := hvac st; appliances := apps;
     hourly_usage := hourly_usage st; hourly_costs := hourly_costs st |}.

(** [TOUPricing.get_daily_schedule]: the rows [(hour, price)] of the data
    frame, [price] read as [self.prices[h]] for [h in range(24)]. *)
Definition get_daily_schedule (t : TOUPricing) : option (list (Z * Q)) :=
  ps <- map_opt (dict_get (prices t)) (py_range 0 24) ;;
  Some (combine (py_range 0 24) ps).

(** ** Explanations ([_build_explanations] in agent.py) *)

(** [f"{n}"] for a Python int. *)
Definition py_str_int (z : Z) : string := NilZero.string_of_int (Z.to_int z).

(** [lst[i:j]]: indices are clamped to the list, negative ones count from the end. *)
Definition py_slice {A} (l : list A) (i j : Z) : list A :=
  let n := Z.of_nat (List.length l) in
  let norm k := if k <? 0 then Z.max 0 (n + k) else Z.min k n in
  firstn (Z.to_nat (norm j - norm i)) (skipn (Z.to_nat (norm i)) l).

(** [d.get(k, default)] for a dict with integer keys. *)
Definition dict_get_or {V} (d : list (Z * V)) (k : Z) (default : V) : V :=
  match dict_get d k with Some v => v | None => default end.

(** [x in lst] for a list of strings. *)
Definition str_in (x : string) (l : list string) : bool := existsb (String.eqb x) l.

(** [for h in range(24): if a.name in greedy_schedule.get(h, []): start_hour = h; break]. *)
Definition find_start_hour (greedy_schedule : Schedule) (n : string) : option Z :=
  find (fun h => str_in n (dict_get_or greedy_schedule h [])) (py_range 0 24).

(** [sorted_prices[int(0.75 * len(sorted_prices))] if sorted_prices else None]:
    the outer [option] is the exception, the inner one Python's [None]. *)
Definition explanation_threshold (prices : list Q) : option (option Q) :=
  match sort_by Qle_bool prices with
  | [] => Some None
  | _ :: _ => thr <- peak_threshold prices ;; Some (Some thr)
  end.

(** The choice of [reason] for an appliance started at [start_hour]. *)
Definition explanation_reason (start_hour : Z) (thr : option Q) (window_prices : list Q)
  : string :=
  let hits_peak := match thr with
                   | Some t => existsb (fun p => Qle_bool t p) window_prices
                   | None => false
                   end in
  if (22 <=? start_hour) || (start_hour <? 6) then "prices overnight are the lowest"
  else if match thr with Some _ => negb hits_peak | None => false end
  then "in low price mode to avoid peak rates"
  else "early enough to meet its deadline even if prices are higher".

(** The body of the appliance loop: [None] is the [continue] taken when the
    appliance is listed at no hour of [range(24)]. [isinstance(greedy_metrics, dict)]
    holds for a dict argument and [daily_budget] is never [None]
    ([get_daily_budget] is a method of every household). *)
Definition explain_appliance (prices : list Q) (thr : option Q) (daily_budget : Q)
    (greedy_schedule : Schedule) (greedy_metrics : list (string * PyVal)) (a : Appliance)
  : option string :=
  match find_start_hour greedy_schedule (name a) with
  | None => None
  | Some start_hour =>
      let duration := eff_duration a in
      let end_hour := Z.min 24 (start_hour + duration) in
      let window_prices := py_slice prices start_hour end_hour in
      let reason := explanation_reason start_hour thr window_prices in
      let first := (name a ++ " was scheduled at hour " ++ py_str_int start_hour
                    ++ " " ++ reason ++ ".")%string in
      let used := str_dict_get greedy_metrics "total_kwh" in
      let parts :=
        if is_number used then
          if Qle_bool (num_value used) daily_budget
          then [first; "This helps keep the budget witin the estimated value"%string]
          else [first; "This steps over the daily budger to avaid comfort limits or dealines "%string]
        else [first] in
      Some (String.concat " " parts)
  end.

Definition hvac_explanation : string :=
  "Hvac is set to slightly relaxed during the peak rates while staying within the comfort boundary".

Definition build_explanations (st : Household) (greedy_schedule : Schedule)
    (greedy_metrics : list (string * PyVal)) : option (list string) :=
  prices <- tou_prices st ;;
  thr <- explanation_threshold prices ;;
  let daily_budget := get_daily_budget st in
  let explanations :=
    fold_left (fun explanations a =>
        match explain_appliance prices thr daily_budget greedy_schedule greedy_metrics a with
        | Some s => explanations ++ [s]
        | None => explanations
        end) (appliances st) [] in
  Some (match thr with
        | Some _ => explanations ++ [hvac_explanation]
        | None => explanations
        end).

(** ** Readings used in the statements about the whole code *)

(** Integer sum. *)
Definition zsum (l : list Z) : Z := fold_right Z.add 0 l.

(** The appliance's draw at hour [h] as the simulator's appliance loop adds it. *)
Definition hour_draw (a : Appliance) (h : Z) : Q :=
  match scheduled_start a with
  | None => 0
  | Some start =>
      if Qeq_bool (durationHours a) 0 then 0
      else if Qle_bool (inject_Z start) (inject_Z h)
              && Qlt_bool (inject_Z h) (inject_Z start + durationHours a)
           then powerkW a else 0
  end.

(** Whether the name of [a] is listed at some hour [0..23] of a schedule. *)
Definition listed_in_day (schedule : Schedule) (a : Appliance) : bool :=
  existsb (fun h => str_in (name a) (dict_get_or schedule h [])) (py_range 0 24).

(** Comfort bounds of a thermostat, as a proposition. *)
Definition within_comfort (t : HVACSystem) (v : Q) : Prop :=
  (minTemp t <= v <= maxTemp t)%Q.

(** ** Lemmas: Python helpers *)

Lemma py_range_0 (n : Z) :
  py_range 0 n = map Z.of_nat (seq 0 (Z.to_nat n)).
Proof.
  unfold py_range. rewrite Z.sub_0_r. apply map_ext. intros; lia.
Qed.

Lemma In_py_range (a b k : Z) : a <= k < b -> In k (py_range a b).
Proof.
  intros H. unfold py_range. apply in_map_iff.
  exists (Z.to_nat (k - a)). split; [lia|]. apply in_seq. lia.
Qed.

Lemma In_py_range_iff (a b k : Z) : In k (py_range a b) <-> a <= k < b.
Proof.
  split; [|apply In_py_range].
  unfold py_range. rewrite in_map_iff. intros [x [<- Hx]].
  apply in_seq in Hx. lia.
Qed.

Lemma hour_cases (k : Z) :
  0 <= k < 24 ->
  k = 0 \/ k = 1 \/ k = 2 \/ k = 3 \/ k = 4 \/ k = 5 \/ k = 6 \/ k = 7 \/
  k = 8 \/ k = 9 \/ k = 10 \/ k = 11 \/ k = 12 \/ k = 13 \/ k = 14 \/ k = 15 \/
  k = 16 \/ k = 17 \/ k = 18 \/ k = 19 \/ k = 20 \/ k = 21 \/ k = 22 \/ k = 23.
Proof. lia. Qed.

Ltac by_hour_cases H :=
  let E := fresh in
  destruct (hour_cases _ H) as
    [E|[E|[E|[E|[E|[E|[E|[E|[E|[E|[E|[E|[E|[E|[E|[E|[E|[E|[E|[E|[E|[E|[E|E]]]]]]]]]]]]]]]]]]]]]]];
  subst; vm_compute; reflexivity.

Lemma fold_opt_pure {A B} (f : A -> B -> option A) (g : A -> B -> A) (l : list B) (a : A) :
  (forall a x, In x l -> f a x = Some (g a x)) ->
  fold_opt f l a = Some (fold_left g l a).
Proof.
  revert a. induction l as [|x l IH]; intros a H; simpl; [reflexivity|].
  rewrite H by (left; reflexivity). simpl. apply IH.
  intros; apply H; right; assumption.
Qed.

Lemma map_opt_pure {A B} (f : A -> option B) (g : A -> B) (l : list A) :
  (forall x, In x l -> f x = Some (g x)) -> map_opt f l = Some (map g l).
Proof.
  induction l as [|x l IH]; intros H; simpl; [reflexivity|].
  rewrite H by (left; reflexivity). simpl. rewrite IH; [reflexivity|].
  intros; apply H; right; assumption.
Qed.

(** ** Lemmas: the pricing table *)

Lemma get_price_hour (p : Profile) (k : Z) :
  0 <= k < 24 ->
  dict_get (create_pricing_schedule (profile_name p)) k = Some (spec_band p k).
Proof. intros Hk. destruct p; by_hour_cases Hk. Qed.

Lemma tou_prices_profile (st : Household) (p : Profile) :
  tou_pricing st = new_TOUPricing (profile_name p) ->
  tou_prices st = Some (map (price_at p) (py_range 0 24)).
Proof.
  intros Ht. unfold tou_prices. apply map_opt_pure. intros h Hh.
  apply In_py_range_iff in Hh. unfold get_price, price_at. rewrite Ht. simpl.
  apply get_price_hour. apply Z.mod_pos_bound. lia.
Qed.

Lemma price_list_index (p : Profile) (h : Z) :
  0 <= h < 24 -> py_index (map (price_at p) (py_range 0 24)) h = Some (price_at p h).
Proof. intros Hh. destruct p; by_hour_cases Hh. Qed.

(** ** Theorems *)

(** C6: for every profile name in {standard, summer, winter} and every
    integer hour, also negative or at least 24, [get_price] never raises
    (never [None]) and returns the spec's band price of [hour mod 24]. *)
Theorem get_price_bands (p : Profile) (hour : Z) :
  get_price (new_TOUPricing (profile_name p)) hour = Some (price_at p hour).
Proof.
  unfold get_price, price_at. simpl. apply get_price_hour.
  apply Z.mod_pos_bound. lia.
Qed.

(** ** Lemmas: the greedy search *)

Lemma Qlt_bool_iff (x y : Q) : Qlt_bool x y = true <-> (x < y)%Q.
Proof.
  unfold Qlt_bool. rewrite negb_true_iff. split.
  - intros H. apply Qnot_le_lt. intros H'. apply Qle_bool_iff in H'. congruence.
  - intros H. destruct (Qle_bool y x) eqn:E; [|reflexivity].
    apply Qle_bool_iff in E. exfalso. apply (Qlt_not_le x y); assumption.
Qed.

Lemma Qlt_bool_false (x y : Q) : Qlt_bool x y = false -> (y <= x)%Q.
Proof.
  unfold Qlt_bool. intros H. apply negb_false_iff in H. apply Qle_bool_iff. exact H.
Qed.

Section Scan.
Variables (f : Z -> Q) (d : Z).

Lemma scan_inv_fold (n : nat) :
  scan_inv f d n (fold_left (scan_step f d) (map Z.of_nat (seq 0 n)) (0, None)).
Proof.
  induction n as [|n IH].
  - left. split; [reflexivity|]. simpl. intros; lia.
  - rewrite seq_S, map_app, fold_left_app. simpl.
    set (best := fold_left (scan_step f d) (map Z.of_nat (seq 0 n)) (0, None)) in *.
    unfold scan_step. destruct (24 <? Z.of_nat n + d) eqn:E.
    + apply Z.ltb_lt in E. destruct IH as [[Hb Hc]|[b [Hb [Hr [Hf [Hmin Hear]]]]]].
      * left. split; [assumption|]. intros c Hc'.
        destruct (Z.eq_dec c (Z.of_nat n)); [subst; lia|]. apply Hc. lia.
      * right. exists b. repeat split; try assumption; try lia.
        -- intros c Hc Hcd. apply Hmin; [|assumption].
           destruct (Z.eq_dec c (Z.of_nat n)); [subst; lia|]. lia.
        -- intros c Hc Hcd Heq. apply Hear; try assumption.
           destruct (Z.eq_dec c (Z.of_nat n)); [subst; lia|]. lia.
    + apply Z.ltb_ge in E. destruct IH as [[Hb Hc]|[b [Hb [Hr [Hf [Hmin Hear]]]]]].
      * rewrite Hb. simpl. right. exists (Z.of_nat n).
        repeat split; try reflexivity; try lia.
        -- intros c Hc' Hcd. destruct (Z.eq_dec c (Z.of_nat n)).
           ++ subst. apply Qle_refl.
           ++ specialize (Hc c ltac:(lia)). lia.
        -- intros c Hc' Hcd _. destruct (Z.eq_dec c (Z.of_nat n)); [lia|].
           specialize (Hc c ltac:(lia)). lia.
      * rewrite Hb. simpl. destruct (Qlt_bool (f (Z.of_nat n)) (f b)) eqn:L.
        -- apply Qlt_bool_iff in L. right. exists (Z.of_nat n).
           repeat split; try reflexivity; try lia.
           ++ intros c Hc Hcd. destruct (Z.eq_dec c (Z.of_nat n)).
              ** subst. apply Qle_refl.
              ** apply Qlt_le_weak. apply Qlt_le_trans with (f b); [assumption|].
                 apply Hmin; [lia|assumption].
           ++ intros c Hc Hcd Heq. destruct (Z.eq_dec c (Z.of_nat n)); [lia|].
              exfalso. assert (Hle : (f b <= f c)%Q) by (apply Hmin; [lia|assumption]).
              rewrite Heq in Hle. apply (Qlt_not_le _ _ L). exact Hle.
        -- apply Qlt_bool_false in L. right. exists b.
           repeat split; try reflexivity; try assumption; try lia.
           ++ intros c Hc Hcd. destruct (Z.eq_dec c (Z.of_nat n)).
              ** subst. exact L.
              ** apply Hmin; [lia|assumption].
           ++ intros c Hc Hcd Heq. destruct (Z.eq_dec c (Z.of_nat n)); [lia|].
              apply Hear; [lia|assumption|assumption].
Qed.
End Scan.

Lemma py_int_inject (q : Q) (d : Z) : (q == inject_Z d)%Q -> py_int q = d.
Proof.
  unfold Qeq, py_int. simpl. rewrite Z.mul_1_r. intros ->.
  apply Z.quot_mul. lia.
Qed.

Lemma fold_cost_sum (pw : Q) (g : Z -> Q) (l : list Z) (c0 : Q) :
  (fold_left (fun c h => c + pw * g h) l c0 == c0 + pw * qsum (map g l))%Q.
Proof.
  revert c0. induction l as [|x l IH]; intros c0; simpl.
  - ring.
  - rewrite IH. ring.
Qed.

(** The cost of a window that fits in the day, read from the price list. *)
Lemma window_cost_profile (p : Profile) (pw : Q) (s e : Z) :
  0 <= s -> e <= 24 ->
  window_cost (map (price_at p) (py_range 0 24)) pw s e =
  Some (fold_left (fun c h => c + pw * price_at p h)%Q (py_range s e) 0%Q).
Proof.
  intros Hs He. unfold window_cost. apply fold_opt_pure.
  intros c h Hh. apply In_py_range_iff in Hh.
  rewrite price_list_index by lia. reflexivity.
Qed.

(** [choose_start] runs the pure scan over the window costs. *)
Lemma choose_start_scan (p : Profile) (a : Appliance) :
  choose_start (map (price_at p) (py_range 0 24)) a =
  Some (fst (fold_left
    (scan_step (fun s => fold_left (fun c h => c + powerkW a * price_at p h)%Q
                           (py_range s (s + eff_duration a)) 0%Q) (eff_duration a))
    (py_range 0 (latest_start a + 1)) (0, None))).
Proof.
  unfold choose_start. rewrite fold_opt_pure with
    (g := scan_step (fun s => fold_left (fun c h => c + powerkW a * price_at p h)%Q
                           (py_range s (s + eff_duration a)) 0%Q) (eff_duration a)).
  - reflexivity.
  - intros best s Hs. apply In_py_range_iff in Hs.
    unfold candidate_step, scan_step. destruct (24 <? s + eff_duration a) eqn:E.
    + reflexivity.
    + apply Z.ltb_ge in E. rewrite window_cost_profile by lia. simpl.
      destruct (lt_best _ _); reflexivity.
Qed.

Lemma spec_cost_fold (p : Profile) (a : Appliance) (d s : Z) :
  (spec_cost p a d s ==
   fold_left (fun c h => c + powerkW a * price_at p h)%Q (py_range s (s + d)) 0%Q)%Q.
Proof. unfold spec_cost. rewrite fold_cost_sum. ring. Qed.

Lemma eff_duration_int (a : Appliance) (d : Z) :
  (durationHours a == inject_Z d)%Q -> 1 <= d -> eff_duration a = d.
Proof. intros Hd Hd1. unfold eff_duration. rewrite (py_int_inject _ _ Hd). lia. Qed.

(** C1: for an appliance of integer duration [d >= 1] and deadline in
    [[0,23]] with at least one candidate start [s] in [[0, latest_start]]
    with [s + d <= 24], the start chosen by the greedy allocator is such a
    candidate, has the least cost [power_kw * sum(price_at(h))] over
    [[start, start + d)] among all of them, and is the earliest candidate
    of that least cost. *)
Theorem greedy_start_min_earliest (st : Household) (p : Profile) (a : Appliance) (d : Z) :
  tou_pricing st = new_TOUPricing (profile_name p) ->
  (durationHours a == inject_Z d)%Q -> 1 <= d ->
  0 <= deadlineHour a <= 23 ->
  (exists s, spec_feasible a d s) ->
  exists prices b,
    tou_prices st = Some prices /\ choose_start prices a = Some b /\
    spec_feasible a d b /\
    (forall c, spec_feasible a d c -> (spec_cost p a d b <= spec_cost p a d c)%Q) /\
    (forall c, spec_feasible a d c ->
       (spec_cost p a d c == spec_cost p a d b)%Q -> b <= c).
Proof.
  intros Ht Hd Hd1 Hdl [s0 Hs0].
  pose proof (eff_duration_int a d Hd Hd1) as Ed.
  exists (map (price_at p) (py_range 0 24)).
  rewrite (tou_prices_profile st p Ht), choose_start_scan, Ed.
  assert (EL : latest_start a = Z.max 0 (deadlineHour a - d + 1))
    by (unfold latest_start; rewrite Ed; reflexivity).
  rewrite EL.
  set (f := fun s => fold_left (fun c h => c + powerkW a * price_at p h)%Q
                       (py_range s (s + d)) 0%Q).
  set (L := Z.max 0 (deadlineHour a - d + 1)) in *.
  rewrite (py_range_0 (L + 1)).
  assert (EN : Z.of_nat (Z.to_nat (L + 1)) = L + 1) by lia.
  destruct (scan_inv_fold f d (Z.to_nat (L + 1)))
    as [[Hb Hc]|[b [Hb [Hr [Hf [Hmin Hear]]]]]];
    rewrite EN in *; unfold spec_feasible in *.
  - exfalso. specialize (Hc s0 ltac:(lia)). lia.
  - exists b. rewrite Hb. split; [reflexivity|]. split; [reflexivity|].
    split; [lia|]. split.
    + intros c Hc. rewrite !spec_cost_fold. apply Hmin; lia.
    + intros c Hc Heq. rewrite !spec_cost_fold in Heq. apply Hear; [lia|lia|exact Heq].
Qed.

Lemma greedy_start_min_earliest_witness :
  exists prices b,
    tou_prices (make_default_env 600 "standard") = Some prices /\
    choose_start prices dishwasher = Some b /\
    spec_feasible dishwasher 2 b /\
    (forall c, spec_feasible dishwasher 2 c ->
       (spec_cost Standard dishwasher 2 b <= spec_cost Standard dishwasher 2 c)%Q) /\
    (forall c, spec_feasible dishwasher 2 c ->
       (spec_cost Standard dishwasher 2 c == spec_cost Standard dishwasher 2 b)%Q -> b <= c).
Proof.
  apply (greedy_start_min_earliest (make_default_env 600 "standard") Standard dishwasher 2).
  - reflexivity.
  - vm_compute. reflexivity.
  - lia.
  - simpl. lia.
  - exists 0. unfold spec_feasible. simpl. lia.
Defined.

(** C2 (code defect): once the appliances placed so far end at hour 24,
    the next appliance is appended to [schedule[24]], a key the schedule
    does not have, and [_baseline_policy] raises [KeyError]. *)
Theorem baseline_policy_keyerror : baseline_policy full_day_household = None.
Proof. vm_compute. reflexivity. Qed.

(** C3 (counterexample): with 200 kWh used of a 100 kWh budget on day 1
    of 30, the daily budget is negative, so it is not
    [max(0, (monthly_budget - energy_used_month) / remaining_days)]. *)
Lemma daily_budget_negative :
  (get_daily_budget over_budget_household < 0)%Q /\
  ~ (get_daily_budget over_budget_household == spec_daily_budget over_budget_household)%Q.
Proof. split; vm_compute; [reflexivity | discriminate]. Qed.

(** C3 (amended): the daily budget is
    [(monthly_budget - energy_used_month) / (month_days - current_day + 1)]
    while days remain, and 0 when none remain (so 0 whenever
    [current_day > month_days]); it is negative when the month's usage
    exceeds the monthly budget while days remain. *)
Theorem daily_budget_formula (st : Household) :
  (0 < monthDays st - currentDay st + 1 ->
     get_daily_budget st = ((monthlyBudget st - energyUsedMonth st)
                            / inject_Z (monthDays st - currentDay st + 1))%Q) /\
  (monthDays st - currentDay st + 1 <= 0 -> get_daily_budget st = 0%Q) /\
  (currentDay st > monthDays st -> get_daily_budget st = 0%Q) /\
  (0 < monthDays st - currentDay st + 1 -> (monthlyBudget st < energyUsedMonth st)%Q ->
     (get_daily_budget st < 0)%Q).
Proof.
  unfold get_daily_budget.
  destruct (monthDays st - currentDay st + 1 <=? 0) eqn:E;
    [apply Z.leb_le in E | apply Z.leb_gt in E].
  - repeat split; intros; try lia; reflexivity.
  - repeat split; intros; try lia; try reflexivity.
    apply Qlt_shift_div_r.
    + rewrite <- (Qmult_0_l 1). unfold Qlt; simpl. lia.
    + rewrite Qmult_0_l.
      setoid_replace 0%Q with (energyUsedMonth st - energyUsedMonth st)%Q by ring.
      unfold Qminus. apply Qplus_lt_l. exact H0.
Qed.

(** ** Lemmas: the day simulator *)

Lemma get_price_hour_any (pt : string) (k : Z) :
  0 <= k < 24 ->
  dict_get (create_pricing_schedule pt) k = Some (band_price pt k).
Proof. intros Hk. by_hour_cases Hk. Qed.

Lemma get_price_any (pt : string) (h : Z) :
  get_price (new_TOUPricing pt) h = Some (band_price pt (h mod 24)).
Proof.
  unfold get_price. simpl. apply get_price_hour_any. apply Z.mod_pos_bound. lia.
Qed.

Lemma fold_opt_app {A B} (f : A -> B -> option A) (l1 l2 : list B) (a : A) :
  fold_opt f (l1 ++ l2) a = (x <- fold_opt f l1 a ;; fold_opt f l2 x).
Proof.
  revert a. induction l1 as [|x l1 IH]; intros a; simpl; [reflexivity|].
  destruct (f a x); simpl; [apply IH | reflexivity].
Qed.

Lemma py_set_index_spec {A} (l : list A) (i : Z) (v : A) :
  0 <= i < Z.of_nat (List.length l) ->
  exists l', py_set_index l i v = Some l' /\ List.length l' = List.length l /\
    nth_error l' (Z.to_nat i) = Some v /\
    (forall j, j <> Z.to_nat i -> nth_error l' j = nth_error l j).
Proof.
  intros Hi. unfold py_set_index.
  replace ((0 <=? i) && (i <? Z.of_nat (List.length l))) with true
    by (symmetry; apply andb_true_iff; split; [apply Z.leb_le | apply Z.ltb_lt]; lia).
  eexists. split; [reflexivity|].
  assert (Hf : List.length (firstn (Z.to_nat i) l) = Z.to_nat i)
    by (rewrite length_firstn; lia).
  split; [|split].
  - rewrite length_app, length_firstn. cbn [List.length]. rewrite length_skipn. lia.
  - rewrite nth_error_app2 by lia. rewrite Hf, Nat.sub_diag. reflexivity.
  - intros j Hj. destruct (Nat.lt_ge_cases j (Z.to_nat i)) as [Hlt|Hge].
    + rewrite nth_error_app1 by lia. rewrite nth_error_firstn.
      replace (Nat.ltb j (Z.to_nat i)) with true by (symmetry; apply Nat.ltb_lt; lia).
      reflexivity.
    + rewrite nth_error_app2 by lia. rewrite Hf.
      destruct (j - Z.to_nat i)%nat as [|k] eqn:Ek; [lia|]. cbn [nth_error].
      rewrite nth_error_skipn. f_equal. lia.
Qed.

Lemma py_index_in {A} (l : list A) (i : Z) :
  0 <= i < Z.of_nat (List.length l) -> exists x, py_index l i = Some x.
Proof.
  intros Hi. unfold py_index. replace (0 <=? i) with true by (symmetry; apply Z.leb_le; lia).
  destruct (nth_error l (Z.to_nat i)) eqn:E; [eauto|].
  apply nth_error_None in E. lia.
Qed.

(** One hour of the simulation succeeds when that hour has a price. *)
Lemma hour_step_spec (pricing : TOUPricing) (apps : list Appliance) (sp : list Q)
    (s : HourState) (h : Z) :
  0 <= h < 24 ->
  (exists price, get_price pricing h = Some price) ->
  List.length (hs_hourly_usage s) = 24%nat -> List.length (hs_hourly_costs s) = 24%nat ->
  exists s', hour_step pricing apps sp s h = Some s' /\
    List.length (hs_hourly_usage s') = 24%nat /\ List.length (hs_hourly_costs s') = 24%nat /\
    hvac_powerkW (hs_hvac s') = hvac_powerkW (hs_hvac s) /\
    minTemp (hs_hvac s') = minTemp (hs_hvac s) /\ maxTemp (hs_hvac s') = maxTemp (hs_hvac s) /\
    nth_error (hs_hourly_usage s') (Z.to_nat h) =
      Some (appliance_usage apps h 0 + hvac_powerkW (hs_hvac s))%Q /\
    (forall j, j <> Z.to_nat h ->
       nth_error (hs_hourly_usage s') j = nth_error (hs_hourly_usage s) j).
Proof.
  intros Hh [price Hp] Hu Hc. unfold hour_step.
  assert (Ht : exists t, (if negb (Nat.eqb (List.length sp) 0)
                              && (h <? Z.of_nat (List.length sp))
                           then v <- py_index sp h ;; Some (set_hvac_temp (hs_hvac s) v)
                           else Some (hs_hvac s)) = Some t /\
                 hvac_powerkW t = hvac_powerkW (hs_hvac s) /\
                 minTemp t = minTemp (hs_hvac s) /\ maxTemp t = maxTemp (hs_hvac s)).
  { destruct (negb (Nat.eqb (List.length sp) 0) && (h <? Z.of_nat (List.length sp))) eqn:E.
    - apply andb_true_iff in E. destruct E as [_ E]. apply Z.ltb_lt in E.
      destruct (py_index_in sp h ltac:(lia)) as [v Hv]. rewrite Hv. simpl.
      eexists. split; [reflexivity|]. simpl. auto.
    - eexists. split; [reflexivity|]. auto. }
  destruct Ht as [t [Ht [Hpw [Hmin Hmax]]]]. rewrite Ht. simpl. rewrite Hp. simpl.
  destruct (py_set_index_spec (hs_hourly_usage s) h
              (appliance_usage apps h 0 + hvac_powerkW t)%Q ltac:(lia))
    as [hu [Ehu [Lhu [Nhu Ohu]]]].
  rewrite Ehu. simpl.
  destruct (py_set_index_spec (hs_hourly_costs s) h
              ((appliance_usage apps h 0 + hvac_powerkW t) * price)%Q ltac:(lia))
    as [hc [Ehc [Lhc _]]].
  rewrite Ehc. simpl.
  eexists. split; [reflexivity|]. simpl.
  split; [lia|]. split; [lia|]. split; [assumption|]. split; [assumption|].
  split; [assumption|]. split.
  - rewrite Nhu, Hpw. reflexivity.
  - exact Ohu.
Qed.

(** The hourly loop over [range(24)]: it never raises when every hour has a
    price, and hour [j] of the usage array holds the appliances' draw at
    [j] plus the thermostat's draw. *)
Lemma hour_loop_spec (pricing : TOUPricing) (apps : list Appliance) (sp : list Q)
    (s0 : HourState) (n : nat) :
  (n <= 24)%nat ->
  (forall h, 0 <= h < 24 -> exists price, get_price pricing h = Some price) ->
  List.length (hs_hourly_usage s0) = 24%nat -> List.length (hs_hourly_costs s0) = 24%nat ->
  exists s, fold_opt (hour_step pricing apps sp) (map Z.of_nat (seq 0 n)) s0 = Some s /\
    List.length (hs_hourly_usage s) = 24%nat /\ List.length (hs_hourly_costs s) = 24%nat /\
    hvac_powerkW (hs_hvac s) = hvac_powerkW (hs_hvac s0) /\
    minTemp (hs_hvac s) = minTemp (hs_hvac s0) /\ maxTemp (hs_hvac s) = maxTemp (hs_hvac s0) /\
    (forall j, (j < n)%nat -> nth_error (hs_hourly_usage s) j =
       Some (appliance_usage apps (Z.of_nat j) 0 + hvac_powerkW (hs_hvac s0))%Q).
Proof.
  intros Hn Hprice Hu0 Hc0. induction n as [|n IH].
  - exists s0. simpl. repeat split; try assumption; intros; lia.
  - destruct IH as [s [Es [Hu [Hc [Hpw [Hmin [Hmax Hj]]]]]]]; [lia|].
    rewrite seq_S, map_app, fold_opt_app, Es. simpl.
    destruct (hour_step_spec pricing apps sp s (Z.of_nat n) ltac:(lia)
                (Hprice (Z.of_nat n) ltac:(lia)) Hu Hc)
      as [s' [Es' [Hu' [Hc' [Hpw' [Hmin' [Hmax' [Hn' Ho']]]]]]]].
    rewrite Es'. exists s'. split; [reflexivity|].
    repeat split; try congruence.
    intros j Hjn. destruct (Nat.eq_dec j n) as [->|Hne].
    + rewrite Nat2Z.id in Hn'. rewrite Hn', Hpw. reflexivity.
    + rewrite Ho' by lia. apply Hj. lia.
Qed.

(** An appliance without a start, or of zero duration, adds nothing to the
    usage of any hour. *)
Lemma appliance_usage_skip (l1 l2 : list Appliance) (a : Appliance) (h : Z) (u : Q) :
  (scheduled_start a = None \/ (durationHours a == 0)%Q) ->
  appliance_usage (l1 ++ a :: l2) h u = appliance_usage (l1 ++ l2) h u.
Proof.
  intros Ha. unfold appliance_usage. rewrite !fold_left_app. simpl.
  f_equal. destruct (scheduled_start a) as [start|]; [|reflexivity].
  destruct Ha as [Ha|Ha]; [discriminate|].
  apply Qeq_bool_iff in Ha. rewrite Ha. reflexivity.
Qed.

Lemma fold_opt_inv {A B} (P : A -> Prop) (f : A -> B -> option A) (l : list B) (a b : A) :
  (forall x y z, P x -> f x y = Some z -> P z) ->
  P a -> fold_opt f l a = Some b -> P b.
Proof.
  intros Hstep. revert a. induction l as [|x l IH]; intros a Ha Hf; simpl in Hf.
  - congruence.
  - destruct (f a x) as [a'|] eqn:E; simpl in Hf; [|discriminate].
    apply (IH a'); [apply (Hstep a x a'); assumption | assumption].
Qed.

Lemma fold_left_inv {A B} (P : A -> Prop) (f : A -> B -> A) (l : list B) (a : A) :
  (forall x y, In y l -> P x -> P (f x y)) -> P a -> P (fold_left f l a).
Proof.
  revert a. induction l as [|x l IH]; intros a Hstep Ha; simpl; [exact Ha|].
  apply IH; [intros; apply Hstep; [right|]; assumption | apply Hstep; [left|]; auto].
Qed.

Lemma In_assign_first (n : string) (hour : Z) (apps : list Appliance) (x : Appliance) :
  In x (assign_first n hour apps) ->
  In x apps \/ (name x = n /\ scheduled_start x = Some hour).
Proof.
  induction apps as [|a apps IH]; simpl; [tauto|].
  destruct (String.eqb (name a) n) eqn:E; simpl.
  - intros [<-|H]; [right; apply String.eqb_eq in E; simpl; auto | left; right; exact H].
  - intros [<-|H]; [left; left; reflexivity|].
    destruct (IH H) as [H'|H']; [left; right; exact H' | right; exact H'].
Qed.

Lemma static_assign_first (n : string) (hour : Z) (apps : list Appliance) :
  map static_fields (assign_first n hour apps) = map static_fields apps.
Proof.
  induction apps as [|a apps IH]; simpl; [reflexivity|].
  destruct (String.eqb (name a) n); simpl; [reflexivity | f_equal; exact IH].
Qed.

Lemma static_apply_schedule (schedule : Schedule) (apps : list Appliance) :
  map static_fields (apply_schedule schedule apps) = map static_fields apps.
Proof.
  unfold apply_schedule.
  apply (fold_left_inv (fun l => map static_fields l = map static_fields apps)); [|reflexivity].
  intros x [hour names] _ Hx.
  apply (fold_left_inv (fun l => map static_fields l = map static_fields apps)); [|exact Hx].
  intros y n _ Hy. rewrite static_assign_first. exact Hy.
Qed.

Lemma static_reset (apps : list Appliance) :
  map static_fields (map reset_appliance apps) = map static_fields apps.
Proof. rewrite map_map. apply map_ext. intros a. reflexivity. Qed.

(** After the schedule is applied, an appliance whose name the schedule
    never lists has no start. *)
Lemma apply_schedule_unassigned (schedule : Schedule) (apps : list Appliance) (a : Appliance) :
  In a (apply_schedule schedule (map reset_appliance apps)) ->
  ~ In (name a) (scheduled_names schedule) -> scheduled_start a = None.
Proof.
  set (N := scheduled_names schedule).
  set (Q := fun l : list Appliance =>
              forall x, In x l -> scheduled_start x = None \/ In (name x) N).
  assert (HQ : Q (apply_schedule schedule (map reset_appliance apps))).
  { unfold apply_schedule. apply fold_left_inv.
    - intros l [hour names] Hin Hl. apply fold_left_inv; [|exact Hl].
      intros l' n Hn Hl' x Hx. destruct (In_assign_first n hour l' x Hx) as [H|[H _]].
      + apply Hl'. exact H.
      + right. rewrite H. unfold N, scheduled_names. apply in_concat.
        exists names. split; [|exact Hn]. apply in_map_iff. exists (hour, names). auto.
    - intros x Hx. left. apply in_map_iff in Hx. destruct Hx as [y [<- _]]. reflexivity. }
  intros Ha Hna. destruct (HQ a Ha) as [H|H]; [exact H | contradiction].
Qed.

(** C7: for every schedule (any hours, any names, possibly empty), every
    setpoint curve and every appliance list (possibly empty), [simulate_day]
    returns without raising; the usage of each hour [h] is the thermostat's
    draw plus the draw of the appliances running at [h]; an appliance whose
    name the schedule never lists has no start; and an appliance with no
    start, or of zero duration, adds nothing to the usage of any hour. *)
Theorem simulate_day_total (st : Household) (pt : string) (schedule : Schedule) (sp : list Q) :
  tou_pricing st = new_TOUPricing pt ->
  exists m st', simulate_day st schedule sp = Some (m, st') /\
    (forall h, 0 <= h < 24 ->
       nth_error (m_hourly_usage m) (Z.to_nat h) =
       Some (appliance_usage (appliances st') h 0 + hvac_powerkW (hvac st))%Q) /\
    (forall a, In a (appliances st') -> ~ In (name a) (scheduled_names schedule) ->
       scheduled_start a = None) /\
    (forall l1 a l2, appliances st' = l1 ++ a :: l2 ->
       (scheduled_start a = None \/ (durationHours a == 0)%Q) ->
       forall h, appliance_usage (appliances st') h 0 = appliance_usage (l1 ++ l2) h 0).
Proof.
  intros Ht. unfold simulate_day.
  set (apps := apply_schedule schedule (map reset_appliance (appliances st))).
  set (s0 := {| hs_hvac := hvac st; hs_comfort_violations := 0;
                hs_hourly_usage := repeat 0%Q 24; hs_hourly_costs := repeat 0%Q 24;
                hs_energy_today := 0; hs_today_cost := 0 |}).
  rewrite py_range_0. change (Z.to_nat 24) with 24%nat.
  destruct (hour_loop_spec (tou_pricing st) apps sp s0 24 ltac:(lia))
    as [s [Es [_ [_ [_ [_ [_ Hj]]]]]]].
  - intros h _. rewrite Ht. eexists. apply get_price_any.
  - apply repeat_length.
  - apply repeat_length.
  - rewrite Es. simpl. do 2 eexists. split; [reflexivity|]. simpl. split; [|split].
    + intros h Hh. rewrite Hj by lia. rewrite Z2Nat.id by lia. reflexivity.
    + intros a Ha Hna. apply (apply_schedule_unassigned schedule (appliances st)); assumption.
    + intros l1 a l2 Happ Ha h. rewrite Happ. apply appliance_usage_skip. exact Ha.
Qed.

Lemma simulate_day_total_witness :
  exists m st', simulate_day (make_default_env 600 "winter") [(3, ["Ghost"%string]); (30, [])] [] =
                Some (m, st') /\
    (forall h, 0 <= h < 24 ->
       nth_error (m_hourly_usage m) (Z.to_nat h) =
       Some (appliance_usage (appliances st') h 0
             + hvac_powerkW (hvac (make_default_env 600 "winter")))%Q) /\
    (forall a, In a (appliances st') ->
       ~ In (name a) (scheduled_names [(3, ["Ghost"%string]); (30, [])]) ->
       scheduled_start a = None) /\
    (forall l1 a l2, appliances st' = l1 ++ a :: l2 ->
       (scheduled_start a = None \/ (durationHours a == 0)%Q) ->
       forall h, appliance_usage (appliances st') h 0 = appliance_usage (l1 ++ l2) h 0).
Proof. apply (simulate_day_total (make_default_env 600 "winter") "winter"). reflexivity. Defined.

Lemma hour_step_hvac (pricing : TOUPricing) (apps : list Appliance) (sp : list Q)
    (s s' : HourState) (h : Z) :
  hour_step pricing apps sp s h = Some s' ->
  minTemp (hs_hvac s') = minTemp (hs_hvac s) /\ maxTemp (hs_hvac s') = maxTemp (hs_hvac s) /\
  hvac_powerkW (hs_hvac s') = hvac_powerkW (hs_hvac s).
Proof.
  unfold hour_step. intros H.
  destruct (negb (Nat.eqb (List.length sp) 0) && (h <? Z.of_nat (List.length sp)));
    [destruct (py_index sp h)|]; simpl in H; try discriminate;
    destruct (get_price pricing h); simpl in H; try discriminate;
    destruct (py_set_index _ _ _); simpl in H; try discriminate;
    destruct (py_set_index _ _ _); simpl in H; try discriminate;
    inversion H; subst; simpl; auto.
Qed.

(** C4 (plain reading): one call of [simulate_day] adds that day's totals
    to the monthly accumulators. *)
Lemma simulate_day_month (st : Household) (schedule : Schedule) (sp : list Q)
    (m : Metrics) (st' : Household) :
  simulate_day st schedule sp = Some (m, st') ->
  energyUsedMonth st' = (energyUsedMonth st + total_kwh m)%Q /\
  monthCost st' = (monthCost st + total_cost m)%Q.
Proof.
  unfold simulate_day. intros H.
  destruct (fold_opt _ _ _) as [s|]; simpl in H; [|discriminate].
  inversion H; subst; simpl. split; reflexivity.
Qed.

(** C10 (frame lemma for the hourly loop and the schedule application). *)
Lemma simulate_day_frame_hvac (st : Household) (schedule : Schedule) (sp : list Q)
    (m : Metrics) (st' : Household) :
  simulate_day st schedule sp = Some (m, st') ->
  minTemp (hvac st') = minTemp (hvac st) /\ maxTemp (hvac st') = maxTemp (hvac st) /\
  hvac_powerkW (hvac st') = hvac_powerkW (hvac st).
Proof.
  unfold simulate_day. intros H.
  destruct (fold_opt _ _ _) as [s|] eqn:E; simpl in H; [|discriminate].
  inversion H; subst; simpl.
  refine (fold_opt_inv (fun s => minTemp (hs_hvac s) = minTemp (hvac st) /\
                                 maxTemp (hs_hvac s) = maxTemp (hvac st) /\
                                 hvac_powerkW (hs_hvac s) = hvac_powerkW (hvac st))
            _ _ _ s _ _ E).
  - intros x y z [H1 [H2 H3]] Hz. destruct (hour_step_hvac _ _ _ _ _ _ Hz) as [G1 [G2 G3]].
    repeat split; congruence.
  - simpl. auto.
Qed.

(** C4: every call of [simulate_day] adds that day's total energy and total
    cost to the monthly accumulators, so [plan_day], which simulates the
    baseline and then the greedy plan against the same household, leaves
    both days' totals in the monthly accumulators. *)
Theorem simulate_accumulates_month :
  (forall st schedule sp m st', simulate_day st schedule sp = Some (m, st') ->
     energyUsedMonth st' = (energyUsedMonth st + total_kwh m)%Q /\
     monthCost st' = (monthCost st + total_cost m)%Q) /\
  (forall st r st2, plan_day st = Some (r, st2) ->
     energyUsedMonth st2 =
       (energyUsedMonth st + total_kwh (baseline_metrics r) + total_kwh (greedy_metrics r))%Q /\
     monthCost st2 =
       (monthCost st + total_cost (baseline_metrics r) + total_cost (greedy_metrics r))%Q).
Proof.
  split; [exact simulate_day_month|].
  intros st r st2 H. unfold plan_day in H.
  destruct (baseline_policy st) as [[bs bh]|]; simpl in H; [|discriminate].
  destruct (simulate_day st bs bh) as [[bm st1]|] eqn:E1; simpl in H; [|discriminate].
  destruct (greedy_policy st1) as [[gs gh]|]; simpl in H; [|discriminate].
  destruct (simulate_day st1 gs gh) as [[gm st2']|] eqn:E2; simpl in H; [|discriminate].
  inversion H; subst; simpl.
  destruct (simulate_day_month _ _ _ _ _ E1) as [A1 B1].
  destruct (simulate_day_month _ _ _ _ _ E2) as [A2 B2].
  rewrite A2, B2, A1, B1. split; reflexivity.
Qed.

(** C10: [simulate_day] leaves the monthly budget, the current day, the
    month length, the current hour, the pricing table, the thermostat's
    comfort bounds and power, and every appliance's name, power, duration,
    deadline and flexibility flag unchanged, and neither adds nor removes
    appliances. *)
Theorem simulate_day_frame (st : Household) (schedule : Schedule) (sp : list Q)
    (m : Metrics) (st' : Household) :
  simulate_day st schedule sp = Some (m, st') ->
  monthlyBudget st' = monthlyBudget st /\ currentDay st' = currentDay st /\
  monthDays st' = monthDays st /\ currentHour st' = currentHour st /\
  tou_pricing st' = tou_pricing st /\
  minTemp (hvac st') = minTemp (hvac st) /\ maxTemp (hvac st') = maxTemp (hvac st) /\
  hvac_powerkW (hvac st') = hvac_powerkW (hvac st) /\
  map static_fields (appliances st') = map static_fields (appliances st) /\
  List.length (appliances st') = List.length (appliances st).
Proof.
  intros H. destruct (simulate_day_frame_hvac _ _ _ _ _ H) as [H1 [H2 H3]].
  unfold simulate_day in H.
  destruct (fold_opt _ _ _) as [s|]; simpl in H; [|discriminate].
  inversion H; subst; simpl in *.
  assert (Hs : map static_fields (apply_schedule schedule (map reset_appliance (appliances st)))
               = map static_fields (appliances st))
    by (rewrite static_apply_schedule; apply static_reset).
  repeat split; try assumption.
  rewrite <- (length_map static_fields), Hs, length_map. reflexivity.
Qed.

Lemma simulate_day_frame_witness :
  exists m st',
    simulate_day (make_default_env 600 "summer") [(0, ["EV Charger"%string])] [70%Q; 80%Q] =
      Some (m, st') /\
    monthlyBudget st' = monthlyBudget (make_default_env 600 "summer") /\
    currentDay st' = currentDay (make_default_env 600 "summer") /\
    monthDays st' = monthDays (make_default_env 600 "summer") /\
    currentHour st' = currentHour (make_default_env 600 "summer") /\
    tou_pricing st' = tou_pricing (make_default_env 600 "summer") /\
    minTemp (hvac st') = minTemp (hvac (make_default_env 600 "summer")) /\
    maxTemp (hvac st') = maxTemp (hvac (make_default_env 600 "summer")) /\
    hvac_powerkW (hvac st') = hvac_powerkW (hvac (make_default_env 600 "summer")) /\
    map static_fields (appliances st') = map static_fields default_appliances /\
    List.length (appliances st') = List.length default_appliances.
Proof.
  destruct (simulate_day (make_default_env 600 "summer") [(0, ["EV Charger"%string])] [70%Q; 80%Q])
    as [[m st']|] eqn:E; [|vm_compute in E; discriminate].
  exists m, st'. split; [reflexivity|].
  apply (simulate_day_frame (make_default_env 600 "summer") [(0, ["EV Charger"%string])]
           [70%Q; 80%Q] m st' E).
Defined.

(** ** Lemmas: the thermostat policy *)

Section TwoLevels.
Variables (lo hi : Q).
Hypothesis Hlohi : (lo < hi)%Q.

Let le_lo_lo : Qle_bool lo lo = true.
Proof. apply Qle_bool_iff. apply Qle_refl. Qed.
Let le_hi_hi : Qle_bool hi hi = true.
Proof. apply Qle_bool_iff. apply Qle_refl. Qed.
Let le_lo_hi : Qle_bool lo hi = true.
Proof. apply Qle_bool_iff. apply Qlt_le_weak. exact Hlohi. Qed.
Let le_hi_lo : Qle_bool hi lo = false.
Proof.
  destruct (Qle_bool hi lo) eqn:E; [|reflexivity].
  apply Qle_bool_iff in E. exfalso. apply (Qlt_not_le _ _ Hlohi). exact E.
Qed.

Lemma insert_lo (a b : nat) :
  insert_by Qle_bool lo (repeat lo a ++ repeat hi b) = repeat lo (S a) ++ repeat hi b.
Proof.
  destruct a as [|a]; simpl.
  - destruct b as [|b]; simpl; [reflexivity|]. rewrite le_lo_hi. reflexivity.
  - rewrite le_lo_lo. reflexivity.
Qed.

Lemma insert_hi (a b : nat) :
  insert_by Qle_bool hi (repeat lo a ++ repeat hi b) = repeat lo a ++ repeat hi (S b).
Proof.
  induction a as [|a IH]; simpl.
  - destruct b as [|b]; simpl; [reflexivity|]. rewrite le_hi_hi. reflexivity.
  - rewrite le_hi_lo, IH. reflexivity.
Qed.

Let eq_lo_hi : Qeq_bool lo hi = false.
Proof.
  destruct (Qeq_bool lo hi) eqn:E; [|reflexivity]. apply Qeq_bool_iff in E.
  exfalso. apply (Qlt_not_le _ _ Hlohi). rewrite E. apply Qle_refl.
Qed.
Let eq_hi_lo : Qeq_bool hi lo = false.
Proof.
  destruct (Qeq_bool hi lo) eqn:E; [|reflexivity]. apply Qeq_bool_iff in E.
  exfalso. apply (Qlt_not_le _ _ Hlohi). rewrite E. apply Qle_refl.
Qed.
Let eq_lo_lo : Qeq_bool lo lo = true.
Proof. apply Qeq_bool_iff. reflexivity. Qed.
Let eq_hi_hi : Qeq_bool hi hi = true.
Proof. apply Qeq_bool_iff. reflexivity. Qed.

Lemma sort_two_levels (l : list Q) :
  (forall x, In x l -> x = lo \/ x = hi) ->
  sort_by Qle_bool l =
  repeat lo (List.length (filter (fun x => Qeq_bool x lo) l)) ++
  repeat hi (List.length (filter (fun x => Qeq_bool x hi) l)).
Proof.
  induction l as [|x l IH]; intros Hl; [reflexivity|].
  simpl. rewrite IH by (intros; apply Hl; right; assumption).
  destruct (Hl x (or_introl eq_refl)) as [->| ->].
  - rewrite eq_lo_lo, eq_lo_hi. apply insert_lo.
  - rewrite eq_hi_hi, eq_hi_lo. apply insert_hi.
Qed.

Lemma count_two_levels (l : list Q) :
  (forall x, In x l -> x = lo \/ x = hi) ->
  List.length l = (List.length (filter (fun x => Qeq_bool x lo) l) +
                   List.length (filter (fun x => Qeq_bool x hi) l))%nat.
Proof.
  induction l as [|x l IH]; intros Hl; [reflexivity|].
  simpl. rewrite IH at 1 by (intros; apply Hl; right; assumption).
  destruct (Hl x (or_introl eq_refl)) as [->| ->].
  - rewrite eq_lo_lo, eq_lo_hi. reflexivity.
  - rewrite eq_hi_hi, eq_hi_lo. simpl. lia.
Qed.

Lemma Qle_bool_two_levels (x : Q) :
  x = lo \/ x = hi -> Qle_bool hi x = Qeq_bool x hi.
Proof. intros [-> | ->]; [rewrite le_hi_lo, eq_lo_hi | rewrite le_hi_hi, eq_hi_hi]; reflexivity. Qed.
End TwoLevels.

Lemma map_nth_seq_id {A B} (g : A -> B) (l : list A) (d : A) :
  map (fun k => g (nth k l d)) (seq 0 (List.length l)) = map g l.
Proof.
  induction l as [|x l IH]; [reflexivity|].
  simpl. f_equal. rewrite <- seq_shift, map_map. exact IH.
Qed.

Lemma map_opt_index {A B} (g : A -> B) (l : list A) (d : A) :
  map_opt (fun h => p <- py_index l h ;; Some (g p)) (py_range 0 (Z.of_nat (List.length l))) =
  Some (map g l).
Proof.
  rewrite (map_opt_pure _ (fun h => g (nth (Z.to_nat h) l d))).
  - f_equal. rewrite py_range_0, Nat2Z.id, map_map.
    rewrite <- (map_nth_seq_id g l d). apply map_ext_in.
    intros k _. rewrite Nat2Z.id. reflexivity.
  - intros h Hh. apply In_py_range_iff in Hh. unfold py_index.
    replace (0 <=? h) with true by (symmetry; apply Z.leb_le; lia).
    rewrite (nth_error_nth' l d) by lia. reflexivity.
Qed.

Lemma insert_by_length {A} (le : A -> A -> bool) (x : A) (l : list A) :
  List.length (insert_by le x l) = S (List.length l).
Proof. induction l as [|y l IH]; simpl; [|destruct (le x y); simpl]; auto. Qed.

Lemma sort_by_length {A} (le : A -> A -> bool) (l : list A) :
  List.length (sort_by le l) = List.length l.
Proof. induction l as [|x l IH]; simpl; [|rewrite insert_by_length, IH]; reflexivity. Qed.

Lemma In_insert_by {A} (le : A -> A -> bool) (x y : A) (l : list A) :
  In y (insert_by le x l) <-> x = y \/ In y l.
Proof.
  induction l as [|z l IH]; simpl; [tauto|].
  destruct (le x z); simpl; [tauto|]. rewrite IH. tauto.
Qed.

Lemma In_sort_by {A} (le : A -> A -> bool) (y : A) (l : list A) :
  In y (sort_by le l) <-> In y l.
Proof.
  induction l as [|x l IH]; simpl; [tauto|]. rewrite In_insert_by, IH. tauto.
Qed.

(** [peak_threshold] on 24 prices reads index 18 of the sorted prices. *)
Lemma peak_threshold_18 (prices : list Q) :
  List.length prices = 24%nat ->
  peak_threshold prices = nth_error (sort_by Qle_bool prices) 18.
Proof.
  intros Hl. unfold peak_threshold. rewrite sort_by_length, Hl. reflexivity.
Qed.

Lemma greedy_hvac_map (prices : list Q) (base max_t : Q) :
  List.length prices = 24%nat ->
  greedy_hvac prices base max_t =
  (thr <- peak_threshold prices ;;
   Some (map (fun p => if Qle_bool thr p then py_min max_t (base + 2)%Q else base) prices)).
Proof.
  intros Hl. unfold greedy_hvac. destruct (peak_threshold prices) as [thr|]; [|reflexivity].
  cbn [obind]. replace (py_range 0 24) with (py_range 0 (Z.of_nat (List.length prices))) by (rewrite Hl; reflexivity).
  apply map_opt_index. exact 0%Q.
Qed.

Lemma dict_append_spec {V} (d : list (Z * list V)) (k : Z) (x : V) :
  In k (map fst d) ->
  exists d', dict_append d k x = Some d' /\ map fst d' = map fst d /\
    (exists vs, dict_get d' k = Some vs /\ In x vs) /\
    (forall k' y vs, dict_get d k' = Some vs -> In y vs ->
       exists vs', dict_get d' k' = Some vs' /\ In y vs').
Proof.
  induction d as [|[k0 vs0] d IH]; simpl; [tauto|]. intros Hk.
  destruct (Z.eqb k k0) eqn:E.
  - apply Z.eqb_eq in E. subst k0. eexists. split; [reflexivity|]. simpl.
    split; [reflexivity|]. split.
    + rewrite Z.eqb_refl. eexists. split; [reflexivity|]. apply in_or_app. right. left. reflexivity.
    + intros k' y vs Hg Hy. destruct (Z.eqb k' k); [|eauto].
      inversion Hg; subst. exists (vs ++ [x]). split; [reflexivity|]. apply in_or_app. auto.
  - apply Z.eqb_neq in E. destruct Hk as [Hk|Hk]; [congruence|].
    destruct (IH Hk) as [d' [Ed [Kd [Hx Hold]]]]. rewrite Ed. simpl.
    eexists. split; [reflexivity|]. simpl. rewrite Kd. split; [reflexivity|]. split.
    + replace (Z.eqb k k0) with false by (symmetry; apply Z.eqb_neq; exact E). exact Hx.
    + intros k' y vs Hg Hy. destruct (Z.eqb k' k0); [eauto|]. eapply Hold; eauto.
Qed.

Lemma choose_start_range (p : Profile) (a : Appliance) :
  exists b, choose_start (map (price_at p) (py_range 0 24)) a = Some b /\ 0 <= b <= 23 /\
    ((forall s, 0 <= s <= latest_start a -> 24 < s + eff_duration a) -> b = 0).
Proof.
  rewrite choose_start_scan.
  assert (HL : 0 <= latest_start a) by (unfold latest_start; lia).
  assert (Hd : 1 <= eff_duration a) by (unfold eff_duration; lia).
  rewrite (py_range_0 (latest_start a + 1)).
  set (f := fun s => fold_left (fun c h => c + powerkW a * price_at p h)%Q
                       (py_range s (s + eff_duration a)) 0%Q).
  destruct (scan_inv_fold f (eff_duration a) (Z.to_nat (latest_start a + 1)))
    as [[Hb _]|[b [Hb [Hr [Hf _]]]]]; rewrite Hb; simpl.
  - exists 0. split; [reflexivity|]. split; [lia|]. auto.
  - exists b. split; [reflexivity|]. split; [lia|].
    intros Hno. specialize (Hno b ltac:(lia)). lia.
Qed.

Lemma empty_schedule_keys : map fst empty_schedule = py_range 0 24.
Proof. unfold empty_schedule. rewrite map_map. apply map_id. Qed.

(** The appliance loop of [_greedy_policy]: it never raises, and every
    appliance's name is appended at its chosen start. *)
Lemma greedy_loop_spec (p : Profile) (L : list Appliance) (sched : Schedule) :
  map fst sched = py_range 0 24 ->
  exists sched',
    fold_opt (fun schedule a =>
                best_start <- choose_start (map (price_at p) (py_range 0 24)) a ;;
                dict_append schedule best_start (name a)) L sched = Some sched' /\
    map fst sched' = py_range 0 24 /\
    (forall k y vs, dict_get sched k = Some vs -> In y vs ->
       exists vs', dict_get sched' k = Some vs' /\ In y vs') /\
    (forall a, In a L -> exists b vs,
       choose_start (map (price_at p) (py_range 0 24)) a = Some b /\
       dict_get sched' b = Some vs /\ In (name a) vs).
Proof.
  revert sched. induction L as [|a L IH]; intros sched Hk.
  - exists sched. simpl. repeat split; [assumption| |]; [eauto | tauto].
  - destruct (choose_start_range p a) as [b [Hb [Hr _]]].
    destruct (dict_append_spec sched b (name a)) as [d' [Ed [Kd [Hx Hold]]]].
    { rewrite Hk. apply In_py_range. lia. }
    destruct (IH d' ltac:(congruence)) as [s' [Es [Ks [Hold' Hall]]]].
    exists s'. cbn [fold_opt]. rewrite Hb. cbn [obind]. rewrite Ed. cbn [obind].
    split; [exact Es|]. split; [exact Ks|]. split.
    + intros k y vs Hg Hy. destruct (Hold k y vs Hg Hy) as [vs' [Hg' Hy']].
      eapply Hold'; eauto.
    + intros a' [<-|Ha'].
      * destruct Hx as [vs [Hg Hy]]. destruct (Hold' b (name a) vs Hg Hy) as [vs' [? ?]].
        exists b, vs'. auto.
      * apply Hall. exact Ha'.
Qed.

Lemma greedy_policy_profile (st : Household) (p : Profile) :
  tou_pricing st = new_TOUPricing (profile_name p) ->
  exists sched sp, greedy_policy st = Some (sched, sp) /\
    greedy_hvac (map (price_at p) (py_range 0 24)) (setpoint (hvac st)) (maxTemp (hvac st))
      = Some sp /\
    (forall a, In a (appliances st) -> exists b vs,
       choose_start (map (price_at p) (py_range 0 24)) a = Some b /\
       dict_get sched b = Some vs /\ In (name a) vs).
Proof.
  intros Ht. unfold greedy_policy. rewrite (tou_prices_profile st p Ht). cbn [obind].
  destruct (greedy_loop_spec p
              (sort_by (fun a b => deadlineHour a <=? deadlineHour b) (appliances st))
              empty_schedule empty_schedule_keys) as [sched [Es [_ [_ Hall]]]].
  rewrite Es. cbn [obind].
  rewrite greedy_hvac_map by (rewrite length_map; reflexivity).
  destruct (peak_threshold (map (price_at p) (py_range 0 24))) as [thr|] eqn:Ep.
  2: { exfalso. destruct p; vm_compute in Ep; discriminate. }
  cbn [obind]. do 2 eexists. split; [reflexivity|]. split; [reflexivity|].
  intros a Ha. apply Hall. apply In_sort_by. exact Ha.
Qed.

Lemma py_min_le (x y : Q) : (y <= x)%Q -> (py_min x y == y)%Q.
Proof.
  intros H. unfold py_min. destruct (Qlt_bool y x) eqn:E; [reflexivity|].
  apply Qlt_bool_false in E. apply Qle_antisym; assumption.
Qed.

(** C5: for every pricing profile, [peak_threshold] is the element at index
    18 = [int(0.75 * 24)] of the ascending-sorted 24 hourly prices, and the
    setpoint of hour [h] is [min(max_temp, base_setpoint + 2.0)] when
    [price_at(h) >= peak_threshold] and [base_setpoint] otherwise
    ([base_setpoint] reads the thermostat's [setpoint]). For 24 prices of
    which 6 equal a low value and 18 a higher value, the threshold is the
    high value, and exactly the 18 high-price hours get the elevated
    setpoint, which is [base_setpoint + 2.0] when that is at most
    [max_temp]; the other 6 keep [base_setpoint]. *)
Theorem greedy_hvac_peak :
  (forall st p, tou_pricing st = new_TOUPricing (profile_name p) ->
     exists prices thr sched,
       tou_prices st = Some prices /\ peak_threshold prices = Some thr /\
       nth_error (sort_by Qle_bool prices) 18 = Some thr /\
       greedy_policy st =
         Some (sched, map (fun h => if Qle_bool thr (price_at p h)
                                    then py_min (maxTemp (hvac st)) (setpoint (hvac st) + 2)%Q
                                    else setpoint (hvac st)) (py_range 0 24))) /\
  (forall (prices : list Q) (lo hi base max_t : Q),
     (lo < hi)%Q -> List.length prices = 24%nat ->
     (forall x, In x prices -> x = lo \/ x = hi) ->
     List.length (filter (fun x => Qeq_bool x lo) prices) = 6%nat ->
     peak_threshold prices = Some hi /\
     List.length (filter (fun x => Qeq_bool x hi) prices) = 18%nat /\
     greedy_hvac prices base max_t =
       Some (map (fun x => if Qeq_bool x hi then py_min max_t (base + 2)%Q else base) prices) /\
     ((base + 2 <= max_t)%Q -> (py_min max_t (base + 2) == base + 2)%Q)).
Proof.
  split.
  - intros st p Ht.
    destruct (greedy_policy_profile st p Ht) as [sched [sp [Eg [Eh _]]]].
    rewrite greedy_hvac_map in Eh by (rewrite length_map; reflexivity).
    destruct (peak_threshold (map (price_at p) (py_range 0 24))) as [thr|] eqn:Ep;
      cbn [obind] in Eh; [|discriminate].
    exists (map (price_at p) (py_range 0 24)), thr, sched.
    split; [apply tou_prices_profile; exact Ht|]. split; [exact Ep|]. split.
    + rewrite <- peak_threshold_18 by (rewrite length_map; reflexivity). exact Ep.
    + rewrite Eg. injection Eh as Esp. rewrite <- Esp. reflexivity.
  - intros prices lo hi base max_t Hlt Hl Hin Hlo.
    pose proof (count_two_levels lo hi Hlt prices Hin) as Hc.
    assert (Hhi : List.length (filter (fun x => Qeq_bool x hi) prices) = 18%nat) by lia.
    assert (Ep : peak_threshold prices = Some hi).
    { rewrite peak_threshold_18 by exact Hl.
      rewrite (sort_two_levels lo hi Hlt prices Hin), Hlo, Hhi. reflexivity. }
    split; [exact Ep|]. split; [exact Hhi|]. split.
    + rewrite greedy_hvac_map by exact Hl. rewrite Ep. cbn [obind]. f_equal.
      apply map_ext_in. intros x Hx.
      rewrite (Qle_bool_two_levels lo hi Hlt x (Hin x Hx)). reflexivity.
    + apply py_min_le.
Qed.

Lemma greedy_hvac_peak_witness :
  (exists prices thr sched,
     tou_prices (make_default_env 600 "standard") = Some prices /\
     peak_threshold prices = Some thr /\
     nth_error (sort_by Qle_bool prices) 18 = Some thr /\
     greedy_policy (make_default_env 600 "standard") =
       Some (sched, map (fun h => if Qle_bool thr (price_at Standard h)
                                  then py_min 76 (72 + 2)%Q else 72%Q) (py_range 0 24))) /\
  (peak_threshold (repeat (1 # 10) 6 ++ repeat (3 # 10) 18) = Some (3 # 10) /\
   List.length (filter (fun x => Qeq_bool x (3 # 10)) (repeat (1 # 10) 6 ++ repeat (3 # 10) 18))
     = 18%nat /\
   greedy_hvac (repeat (1 # 10) 6 ++ repeat (3 # 10) 18) 72 76 =
     Some (map (fun x => if Qeq_bool x (3 # 10) then py_min 76 (72 + 2)%Q else 72%Q)
               (repeat (1 # 10) 6 ++ repeat (3 # 10) 18)) /\
   ((72 + 2 <= 76)%Q -> (py_min 76 (72 + 2) == 72 + 2)%Q)).
Proof.
  split.
  - apply (proj1 greedy_hvac_peak (make_default_env 600 "standard") Standard). reflexivity.
  - apply (proj2 greedy_hvac_peak (repeat (1 # 10) 6 ++ repeat (3 # 10) 18)
             (1 # 10) (3 # 10) 72%Q 76%Q).
    + reflexivity.
    + reflexivity.
    + intros x Hx. apply in_app_or in Hx.
      destruct Hx as [Hx|Hx]; apply repeat_spec in Hx; auto.
    + reflexivity.
Defined.

Lemma py_int_lower (q : Q) (k : Z) : 0 < k -> k <= py_int q -> (inject_Z k <= q)%Q.
Proof.
  unfold py_int, Qle. simpl. intros Hk H.
  set (n := Qnum q) in *. set (d := Zpos (Qden q)) in *.
  assert (Hd : 0 < d) by (unfold d; lia).
  destruct (Z.le_gt_cases 0 n) as [Hn|Hn].
  - rewrite Z.quot_div_nonneg in H by lia.
    pose proof (Z.mul_div_le n d Hd). nia.
  - exfalso. rewrite <- (Z.opp_involutive n), Z.quot_opp_l in H by lia.
    pose proof (Z.quot_pos (- n) d ltac:(lia) Hd). lia.
Qed.

(** C8: when no candidate start in [[0, latest_start]] satisfies
    [start + duration <= 24] (the allocator's duration,
    [max(1, int(duration_hours))]), the greedy allocator does not fail: it
    chooses start 0 and lists the appliance at hour 0 of the schedule; and
    with a deadline of at most 23, the simulator's deadline check counts an
    appliance started at hour 0 as missed. *)
Theorem greedy_infeasible_start_zero (st : Household) (p : Profile) (a : Appliance) :
  tou_pricing st = new_TOUPricing (profile_name p) ->
  In a (appliances st) ->
  (forall s, 0 <= s <= latest_start a -> 24 < s + eff_duration a) ->
  exists prices sched sp vs,
    tou_prices st = Some prices /\ choose_start prices a = Some 0 /\
    greedy_policy st = Some (sched, sp) /\
    dict_get sched 0 = Some vs /\ In (name a) vs /\
    (deadlineHour a <= 23 -> misses_deadline (mark_scheduled 0 a) = true).
Proof.
  intros Ht Ha Hno.
  destruct (choose_start_range p a) as [b [Hb [_ Hb0]]].
  specialize (Hb0 Hno). subst b.
  destruct (greedy_policy_profile st p Ht) as [sched [sp [Eg [_ Hall]]]].
  destruct (Hall a Ha) as [b [vs [Hb' [Hg Hn]]]]. rewrite Hb in Hb'. injection Hb' as <-.
  exists (map (price_at p) (py_range 0 24)), sched, sp, vs.
  split; [apply tou_prices_profile; exact Ht|].
  repeat split; try assumption.
  intros Hdl. unfold misses_deadline. simpl.
  assert (Hd : 25 <= py_int (durationHours a)).
  { specialize (Hno 0 ltac:(unfold latest_start; lia)). unfold eff_duration in Hno. lia. }
  pose proof (py_int_lower (durationHours a) 25 ltac:(lia) Hd) as Hq.
  destruct (Qeq_bool (durationHours a) 0) eqn:E.
  - apply Qeq_bool_iff in E. rewrite E in Hq. unfold Qle in Hq. simpl in Hq. lia.
  - apply Qlt_bool_iff. rewrite Qplus_0_l.
    apply Qlt_le_trans with (inject_Z 25); [|exact Hq].
    rewrite <- Zlt_Qlt. lia.
Qed.

Lemma greedy_infeasible_start_zero_witness :
  exists prices sched sp vs,
    tou_prices long_run_household = Some prices /\
    choose_start prices long_pump = Some 0 /\
    greedy_policy long_run_household = Some (sched, sp) /\
    dict_get sched 0 = Some vs /\ In (name long_pump) vs /\
    (deadlineHour long_pump <= 23 -> misses_deadline (mark_scheduled 0 long_pump) = true).
Proof.
  apply (greedy_infeasible_start_zero long_run_household Standard long_pump).
  - reflexivity.
  - left. reflexivity.
  - intros s Hs.
    assert (E1 : eff_duration long_pump = 30) by reflexivity.
    assert (E2 : latest_start long_pump = 0) by reflexivity.
    rewrite E1. rewrite E2 in Hs. lia.
Defined.

(** C9: when the baseline's [total_cost] is a number [> 0] and the greedy
    [total_cost] is a number, [compute_savings] returns
    [absolute = baseline - greedy] and [percent = absolute / baseline * 100];
    when the baseline's [total_cost] is missing ([None]), not a number, or
    [<= 0], it returns [{absolute: 0, percent: 0}]. *)
Theorem compute_savings_spec (bm gm : list (string * PyVal)) :
  (is_number (str_dict_get bm "total_cost") = true ->
   is_number (str_dict_get gm "total_cost") = true ->
   (0 < num_value (str_dict_get bm "total_cost"))%Q ->
   compute_savings bm gm =
     {| absolute := num_value (str_dict_get bm "total_cost")
                    - num_value (str_dict_get gm "total_cost");
        percent := (num_value (str_dict_get bm "total_cost")
                    - num_value (str_dict_get gm "total_cost"))
                   / num_value (str_dict_get bm "total_cost") * 100 |}%Q) /\
  (is_number (str_dict_get bm "total_cost") = false \/
   (num_value (str_dict_get bm "total_cost") <= 0)%Q ->
   compute_savings bm gm = {| absolute := 0; percent := 0 |}).
Proof.
  unfold compute_savings.
  set (bc := str_dict_get bm "total_cost"). set (gc := str_dict_get gm "total_cost").
  split.
  - intros Hb Hg Hpos. rewrite Hb, Hg. simpl.
    destruct (Qle_bool (num_value bc) 0) eqn:E; [|reflexivity].
    apply Qle_bool_iff in E. exfalso. apply (Qlt_not_le _ _ Hpos). exact E.
  - intros [Hb|Hle]; [rewrite Hb; reflexivity|].
    apply Qle_bool_iff in Hle. rewrite Hle. rewrite !orb_true_r. reflexivity.
Qed.

(** ** Lemmas: schedules as dicts of lists *)

Lemma dict_append_None {V} (d : list (Z * list V)) (k : Z) (x : V) :
  dict_append d k x = None <-> ~ In k (map fst d).
Proof.
  induction d as [|[k0 vs] d IH]; simpl; [tauto|].
  destruct (Z.eqb k k0) eqn:E.
  - apply Z.eqb_eq in E. subst. split; [discriminate|]. intros H. exfalso. apply H. left. reflexivity.
  - apply Z.eqb_neq in E. destruct (dict_append d k x) as [r|]; cbn [obind].
    + split; [discriminate|]. intros H.
      assert (C : Some r = None) by (apply IH; intros Hk; apply H; right; exact Hk).
      discriminate.
    + split; [|reflexivity]. intros _ [H|H]; [congruence|]. apply (proj1 IH eq_refl). exact H.
Qed.

Lemma dict_append_keys {V} (d d' : list (Z * list V)) (k : Z) (x : V) :
  dict_append d k x = Some d' -> map fst d' = map fst d.
Proof.
  revert d'. induction d as [|[k0 vs] d IH]; intros d' H; simpl in H; [discriminate|].
  destruct (Z.eqb k k0).
  - injection H as <-. reflexivity.
  - destruct (dict_append d k x) as [r|] eqn:E; cbn [obind] in H; [|discriminate].
    injection H as <-. simpl. rewrite (IH r eq_refl). reflexivity.
Qed.

Lemma dict_append_perm {V} (d d' : list (Z * list V)) (k : Z) (x : V) :
  dict_append d k x = Some d' ->
  Permutation (List.concat (map snd d')) (x :: List.concat (map snd d)).
Proof.
  revert d'. induction d as [|[k0 vs] d IH]; intros d' H; simpl in H; [discriminate|].
  destruct (Z.eqb k k0).
  - injection H as <-. simpl. rewrite <- app_assoc. simpl. apply Permutation_sym, Permutation_middle.
  - destruct (dict_append d k x) as [r|] eqn:E; cbn [obind] in H; [|discriminate].
    injection H as <-. simpl. specialize (IH r eq_refl).
    eapply perm_trans; [apply Permutation_app_head; exact IH|].
    apply Permutation_sym, Permutation_middle.
Qed.

(** A successful [d[k].append(x)]: [k] is a key, [x] is now listed at [k]
    and nothing listed before is lost. *)
Lemma dict_append_Some {V} (d d' : list (Z * list V)) (k : Z) (x : V) :
  dict_append d k x = Some d' ->
  In k (map fst d) /\ map fst d' = map fst d /\
  (exists vs, dict_get d' k = Some vs /\ In x vs) /\
  (forall k' y vs, dict_get d k' = Some vs -> In y vs ->
     exists vs', dict_get d' k' = Some vs' /\ In y vs').
Proof.
  intros H.
  assert (Hk : In k (map fst d)).
  { destruct (In_dec Z.eq_dec k (map fst d)) as [Hk|Hk]; [exact Hk|].
    apply dict_append_None with (x := x) in Hk. congruence. }
  destruct (dict_append_spec d k x Hk) as [d'' [E R]]. rewrite H in E. injection E as <-.
  split; [exact Hk | exact R].
Qed.

Lemma zsum_eff_nonneg (l : list Appliance) : 0 <= zsum (map eff_duration l).
Proof.
  induction l as [|a l IH]; simpl; [lia|]. unfold eff_duration at 1. lia.
Qed.

(** ** Lemmas: the baseline policy *)

Lemma baseline_loop_total (apps : list Appliance) (sched : Schedule) (cur : Z) :
  map fst sched = py_range 0 24 -> 0 <= cur <= 24 ->
  (baseline_loop apps sched cur <> None <->
   apps = [] \/ cur + zsum (map eff_duration (removelast apps)) < 24).
Proof.
  revert sched cur. induction apps as [|a apps IH]; intros sched cur Hk Hc.
  - simpl. split; [auto | intros _; discriminate].
  - simpl baseline_loop.
    assert (Hd : 1 <= eff_duration a) by (unfold eff_duration; lia).
    pose proof (zsum_eff_nonneg (removelast (a :: apps))) as Hz.
    destruct (Z.eq_dec cur 24) as [->|Hne].
    + replace (dict_append sched 24 (name a)) with (@None Schedule).
      2: { symmetry. apply dict_append_None. rewrite Hk. rewrite In_py_range_iff. lia. }
      cbn [obind]. split; [intros H; exfalso; apply H; reflexivity|].
      intros [H|H]; [discriminate | lia].
    + destruct (dict_append sched cur (name a)) as [d'|] eqn:E.
      2: { exfalso. apply dict_append_None in E. apply E. rewrite Hk. apply In_py_range. lia. }
      cbn [obind]. rewrite (IH d' (Z.min 24 (cur + eff_duration a))).
      2: { rewrite (dict_append_keys _ _ _ _ E). exact Hk. }
      2: { lia. }
      destruct apps as [|b apps].
      * simpl. split; [intros _; right; lia | intros _; left; reflexivity].
      * change (removelast (a :: b :: apps)) with (a :: removelast (b :: apps)) in *.
        cbn [map zsum fold_right] in *.
        pose proof (zsum_eff_nonneg (removelast (b :: apps))) as Hz'.
        unfold zsum in *. split.
        -- intros [H|H]; [discriminate|]. right. lia.
        -- intros [H|H]; [discriminate|]. right. lia.
Qed.

Lemma baseline_loop_start (l : list Appliance) (sched sched' : Schedule) (cur : Z) :
  map fst sched = py_range 0 24 -> l <> [] ->
  baseline_loop l sched cur = Some sched' -> 0 <= cur < 24.
Proof.
  intros Hk Hl H. destruct l as [|a l]; [contradiction|]. simpl in H.
  destruct (dict_append sched cur (name a)) as [d'|] eqn:E; cbn [obind] in H; [|discriminate].
  destruct (dict_append_Some _ _ _ _ E) as [Hin _]. rewrite Hk, In_py_range_iff in Hin. exact Hin.
Qed.

Lemma baseline_loop_spec (apps : list Appliance) (sched sched' : Schedule) (cur : Z) :
  map fst sched = py_range 0 24 ->
  baseline_loop apps sched cur = Some sched' ->
  map fst sched' = py_range 0 24 /\
  Permutation (scheduled_names sched') (map name apps ++ scheduled_names sched) /\
  (forall k y vs, dict_get sched k = Some vs -> In y vs ->
     exists vs', dict_get sched' k = Some vs' /\ In y vs') /\
  (forall k a, nth_error apps k = Some a ->
     exists vs, dict_get sched' (cur + zsum (map eff_duration (firstn k apps))) = Some vs /\
                In (name a) vs).
Proof.
  revert sched cur. induction apps as [|a apps IH]; intros sched cur Hk H.
  - simpl in H. injection H as <-. split; [exact Hk|]. split; [apply Permutation_refl|].
    split; [eauto|]. intros k a Ha. destruct k; discriminate.
  - simpl in H.
    destruct (dict_append sched cur (name a)) as [d'|] eqn:E; cbn [obind] in H; [|discriminate].
    destruct (dict_append_Some _ _ _ _ E) as [Hin [Kd [Hx Hold]]].
    rewrite Hk, In_py_range_iff in Hin.
    destruct (IH d' _ ltac:(congruence) H) as [K' [P' [Old' Pos']]].
    split; [exact K'|]. split.
    { unfold scheduled_names in *. eapply perm_trans; [exact P'|].
      simpl. eapply perm_trans;
        [apply Permutation_app_head; exact (dict_append_perm _ _ _ _ E)|].
      apply Permutation_sym, Permutation_middle. }
    split.
    { intros k y vs Hg Hy. destruct (Hold k y vs Hg Hy) as [vs' [Hg' Hy']]. eauto. }
    intros [|k] b Hb.
    + simpl in Hb. injection Hb as <-. simpl. rewrite Z.add_0_r.
      destruct Hx as [vs [Hg Hy]]. eauto.
    + simpl in Hb. destruct (Pos' k b Hb) as [vs [Hg Hy]].
      assert (Hne : apps <> []) by (intros ->; destruct k; discriminate).
      pose proof (baseline_loop_start apps d' sched' _ ltac:(congruence) Hne H) as Hs.
      exists vs. split; [|exact Hy]. rewrite <- Hg. f_equal.
      simpl. unfold zsum. simpl. fold (zsum (map eff_duration (firstn k apps))). lia.
Qed.

(** ** Lemmas: the greedy policy's schedule *)

Lemma insert_by_perm {A} (le : A -> A -> bool) (x : A) (l : list A) :
  Permutation (insert_by le x l) (x :: l).
Proof.
  induction l as [|y l IH]; simpl; [apply Permutation_refl|].
  destruct (le x y); [apply Permutation_refl|].
  eapply perm_trans; [apply perm_skip; exact IH|]. apply perm_swap.
Qed.

Lemma sort_by_perm {A} (le : A -> A -> bool) (l : list A) : Permutation (sort_by le l) l.
Proof.
  induction l as [|x l IH]; simpl; [apply Permutation_refl|].
  eapply perm_trans; [apply insert_by_perm|]. apply perm_skip. exact IH.
Qed.

Lemma map_opt_length {A B} (f : A -> option B) (l : list A) (l' : list B) :
  map_opt f l = Some l' -> List.length l' = List.length l.
Proof.
  revert l'. induction l as [|x l IH]; intros l' H; simpl in H.
  - injection H as <-. reflexivity.
  - destruct (f x); cbn [obind] in H; [|discriminate].
    destruct (map_opt f l) as [r|] eqn:E; cbn [obind] in H; [|discriminate].
    injection H as <-. simpl. rewrite (IH r eq_refl). reflexivity.
Qed.

Lemma map_opt_In {A B} (f : A -> option B) (l : list A) (l' : list B) (y : B) :
  map_opt f l = Some l' -> In y l' -> exists x, In x l /\ f x = Some y.
Proof.
  revert l'. induction l as [|x l IH]; intros l' H Hy; simpl in H.
  - injection H as <-. contradiction.
  - destruct (f x) as [z|] eqn:Ez; cbn [obind] in H; [|discriminate].
    destruct (map_opt f l) as [r|] eqn:E; cbn [obind] in H; [|discriminate].
    injection H as <-. destruct Hy as [<-|Hy].
    + exists x. split; [left; reflexivity | exact Ez].
    + destruct (IH r eq_refl Hy) as [x' [Hx' Hf]]. exists x'. split; [right|]; assumption.
Qed.

(** The appliance loop of [_greedy_policy] lists each appliance's name once. *)
Lemma greedy_loop_perm (prices : list Q) (L : list Appliance) (sched sched' : Schedule) :
  fold_opt (fun schedule a =>
              best_start <- choose_start prices a ;;
              dict_append schedule best_start (name a)) L sched = Some sched' ->
  Permutation (scheduled_names sched') (map name L ++ scheduled_names sched).
Proof.
  revert sched. induction L as [|a L IH]; intros sched H; simpl in H.
  - injection H as <-. apply Permutation_refl.
  - destruct (choose_start prices a) as [b|]; cbn [obind] in H; [|discriminate].
    destruct (dict_append sched b (name a)) as [d|] eqn:E; cbn [obind] in H; [|discriminate].
    eapply perm_trans; [exact (IH d H)|]. simpl. unfold scheduled_names.
    eapply perm_trans; [apply Permutation_app_head; exact (dict_append_perm _ _ _ _ E)|].
    apply Permutation_sym, Permutation_middle.
Qed.

(** ** Lemmas: the hourly loop of the simulator *)

(** What one successful hour of [simulate_day] does. *)
Lemma hour_step_inv (pricing : TOUPricing) (apps : list Appliance) (sp : list Q)
    (s s' : HourState) (h : Z) :
  hour_step pricing apps sp s h = Some s' ->
  let usage := (appliance_usage apps h 0 + hvac_powerkW (hs_hvac s'))%Q in
  exists price,
    ((negb (Nat.eqb (List.length sp) 0) && (h <? Z.of_nat (List.length sp)) = true /\
      exists v, py_index sp h = Some v /\ hs_hvac s' = set_hvac_temp (hs_hvac s) v) \/
     ((negb (Nat.eqb (List.length sp) 0) && (h <? Z.of_nat (List.length sp))) = false /\
      hs_hvac s' = hs_hvac s)) /\
    get_price pricing h = Some price /\
    hs_comfort_violations s' =
      (if negb (is_comfortable (hs_hvac s')) then hs_comfort_violations s + 1
       else hs_comfort_violations s) /\
    py_set_index (hs_hourly_usage s) h usage = Some (hs_hourly_usage s') /\
    py_set_index (hs_hourly_costs s) h (usage * price)%Q = Some (hs_hourly_costs s') /\
    hs_energy_today s' = (hs_energy_today s + usage)%Q /\
    hs_today_cost s' = (hs_today_cost s + usage * price)%Q.
Proof.
  unfold hour_step. intros H.
  destruct (negb (Nat.eqb (List.length sp) 0) && (h <? Z.of_nat (List.length sp))) eqn:C.
  - destruct (py_index sp h) as [v|] eqn:Ev; cbn [obind] in H; [|discriminate].
    destruct (get_price pricing h) as [price|] eqn:Ep; cbn [obind] in H; [|discriminate].
    destruct (py_set_index (hs_hourly_usage s) _ _) as [hu|] eqn:Eu;
      cbn [obind] in H; [|discriminate].
    destruct (py_set_index (hs_hourly_costs s) _ _) as [hc|] eqn:Ec;
      cbn [obind] in H; [|discriminate].
    injection H as <-. simpl. exists price.
    split; [left; split; [reflexivity|]; exists v; split; reflexivity|].
    repeat split; assumption.
  - destruct (get_price pricing h) as [price|] eqn:Ep; cbn [obind] in H; [|discriminate].
    destruct (py_set_index (hs_hourly_usage s) _ _) as [hu|] eqn:Eu;
      cbn [obind] in H; [|discriminate].
    destruct (py_set_index (hs_hourly_costs s) _ _) as [hc|] eqn:Ec;
      cbn [obind] in H; [|discriminate].
    injection H as <-. simpl. exists price.
    split; [right; split; reflexivity|].
    repeat split; assumption.
Qed.

(** Induction over the hours [0 .. n-1] of a loop that can raise. *)
Lemma fold_opt_seq_ind {A} (f : A -> Z -> option A) (P : nat -> A -> Prop) (n : nat) (a b : A) :
  P 0%nat a ->
  (forall k c c', (k < n)%nat -> P k c -> f c (Z.of_nat k) = Some c' -> P (S k) c') ->
  fold_opt f (map Z.of_nat (seq 0 n)) a = Some b -> P n b.
Proof.
  revert b. induction n as [|n IH]; intros b H0 Hstep H.
  - simpl in H. injection H as <-. exact H0.
  - rewrite seq_S, map_app, fold_opt_app in H.
    destruct (fold_opt f (map Z.of_nat (seq 0 n)) a) as [c|] eqn:E; cbn [obind] in H;
      [|discriminate].
    simpl in H. destruct (f c (Z.of_nat n)) as [c'|] eqn:Ef; cbn [obind] in H; [|discriminate].
    injection H as <-. apply (Hstep n c c'); [lia| |exact Ef].
    apply IH; [exact H0 | | reflexivity].
    intros k0 c0 c0' Hk0 HP0 Hf0. apply (Hstep k0 c0 c0'); [lia | exact HP0 | exact Hf0].
Qed.

(** [simulate_day] opened up: its hourly loop and what it stores. *)
Lemma simulate_day_inv (st : Household) (schedule : Schedule) (sp : list Q)
    (m : Metrics) (st' : Household) :
  simulate_day st schedule sp = Some (m, st') ->
  exists s,
    fold_opt (hour_step (tou_pricing st)
                (apply_schedule schedule (map reset_appliance (appliances st))) sp)
      (map Z.of_nat (seq 0 24))
      {| hs_hvac := hvac st; hs_comfort_violations := 0;
         hs_hourly_usage := repeat 0%Q 24; hs_hourly_costs := repeat 0%Q 24;
         hs_energy_today := 0; hs_today_cost := 0 |} = Some s /\
    appliances st' = apply_schedule schedule (map reset_appliance (appliances st)) /\
    hvac st' = hs_hvac s /\ tou_pricing st' = tou_pricing st /\
    total_kwh m = hs_energy_today s /\ total_cost m = hs_today_cost s /\
    m_hourly_usage m = hs_hourly_usage s /\ m_hourly_costs m = hs_hourly_costs s /\
    comfort_violations m = hs_comfort_violations s /\
    missed_deadlines m = count_missed (appliances st') /\
    daily_budget_kwh m = get_daily_budget st' /\
    monthlyBudget st' = monthlyBudget st /\ currentDay st' = currentDay st /\
    monthDays st' = monthDays st /\
    energyUsedMonth st' = (energyUsedMonth st + hs_energy_today s)%Q.
Proof.
  unfold simulate_day. rewrite py_range_0. change (Z.to_nat 24) with 24%nat. intros H.
  destruct (fold_opt _ _ _) as [s|] eqn:E; cbn [obind] in H; [|discriminate].
  injection H as <- <-. exists s. split; [reflexivity|].
  repeat (split; [reflexivity|]). reflexivity.
Qed.

Lemma hour_step_power (pricing : TOUPricing) (apps : list Appliance) (sp : list Q)
    (s s' : HourState) (h : Z) :
  hour_step pricing apps sp s h = Some s' -> hvac_powerkW (hs_hvac s') = hvac_powerkW (hs_hvac s).
Proof. intros H. destruct (hour_step_hvac _ _ _ _ _ _ H) as [_ [_ E]]. exact E. Qed.

Lemma qsum_app (l1 l2 : list Q) : (qsum (l1 ++ l2) == qsum l1 + qsum l2)%Q.
Proof. induction l1 as [|x l1 IH]; simpl; [ring|]. rewrite IH. ring. Qed.

Lemma py_set_index_prefix (f : nat -> Q) (n : nat) (v : Q) :
  (n < 24)%nat ->
  py_set_index (map f (seq 0 n) ++ repeat 0%Q (24 - n)) (Z.of_nat n) v =
  Some (map f (seq 0 n) ++ v :: repeat 0%Q (24 - S n)).
Proof.
  intros Hn. unfold py_set_index.
  assert (HL : List.length (map f (seq 0 n) ++ repeat 0%Q (24 - n)) = 24%nat)
    by (rewrite length_app, length_map, length_seq, repeat_length; lia).
  rewrite HL.
  replace ((0 <=? Z.of_nat n) && (Z.of_nat n <? Z.of_nat 24)) with true
    by (symmetry; apply andb_true_iff; split; [apply Z.leb_le | apply Z.ltb_lt]; lia).
  rewrite Nat2Z.id. f_equal.
  assert (LA : List.length (map f (seq 0 n)) = n) by (rewrite length_map, length_seq; reflexivity).
  rewrite firstn_app, skipn_app, LA, Nat.sub_diag, firstn_O, app_nil_r.
  rewrite firstn_all2 by lia. rewrite (skipn_all2 (map f (seq 0 n))) by lia.
  replace (S n - n)%nat with 1%nat by lia.
  replace (24 - n)%nat with (S (24 - S n)) by lia. reflexivity.
Qed.

(** The state of the hourly loop after the hours [0 .. n-1]. *)
Lemma hour_loop_state (pricing : TOUPricing) (apps : list Appliance) (sp : list Q)
    (t0 : HVACSystem) (n : nat) (s : HourState) :
  let u := fun j : nat => (appliance_usage apps (Z.of_nat j) 0 + hvac_powerkW t0)%Q in
  let pr := fun j : nat => match get_price pricing (Z.of_nat j) with Some p => p | None => 0%Q end in
  (n <= 24)%nat ->
  fold_opt (hour_step pricing apps sp) (map Z.of_nat (seq 0 n))
    {| hs_hvac := t0; hs_comfort_violations := 0;
       hs_hourly_usage := repeat 0%Q 24; hs_hourly_costs := repeat 0%Q 24;
       hs_energy_today := 0; hs_today_cost := 0 |} = Some s ->
  hvac_powerkW (hs_hvac s) = hvac_powerkW t0 /\
  hs_hourly_usage s = map u (seq 0 n) ++ repeat 0%Q (24 - n) /\
  hs_hourly_costs s = map (fun j => u j * pr j)%Q (seq 0 n) ++ repeat 0%Q (24 - n) /\
  (forall j, (j < n)%nat -> get_price pricing (Z.of_nat j) = Some (pr j)) /\
  (hs_energy_today s == qsum (map u (seq 0 n)))%Q /\
  (hs_today_cost s == qsum (map (fun j => u j * pr j)%Q (seq 0 n)))%Q /\
  0 <= hs_comfort_violations s <= Z.of_nat n.
Proof.
  intros u pr Hn Hf. revert Hn.
  refine (fold_opt_seq_ind (hour_step pricing apps sp) (fun n s =>
    (n <= 24)%nat ->
    hvac_powerkW (hs_hvac s) = hvac_powerkW t0 /\
    hs_hourly_usage s = map u (seq 0 n) ++ repeat 0%Q (24 - n) /\
    hs_hourly_costs s = map (fun j => u j * pr j)%Q (seq 0 n) ++ repeat 0%Q (24 - n) /\
    (forall j, (j < n)%nat -> get_price pricing (Z.of_nat j) = Some (pr j)) /\
    (hs_energy_today s == qsum (map u (seq 0 n)))%Q /\
    (hs_today_cost s == qsum (map (fun j => u j * pr j)%Q (seq 0 n)))%Q /\
    0 <= hs_comfort_violations s <= Z.of_nat n) n _ s _ _ Hf).
  - intros _. simpl. repeat split; try reflexivity; try lia; try (intros; lia).
  - intros k c c' Hk IH Hs Hk'. specialize (IH ltac:(lia)).
    destruct IH as [Pw [Hu [Hc [Hp [He [Ht Hv]]]]]].
    pose proof (hour_step_power _ _ _ _ _ _ Hs) as Pw'.
    apply hour_step_inv in Hs. destruct Hs as [price [_ [Ep [Ecv [Eu [Ec [Ee Et]]]]]]].
    rewrite Pw', Pw in *.
    assert (Epr : pr k = price) by (unfold pr; rewrite Ep; reflexivity).
    assert (Euk : (appliance_usage apps (Z.of_nat k) 0 + hvac_powerkW t0)%Q = u k) by reflexivity.
    rewrite Euk in Eu, Ec, Ee, Et. rewrite <- Epr in Ec, Et.
    rewrite Hu, py_set_index_prefix in Eu by lia.
    rewrite Hc, py_set_index_prefix in Ec by lia.
    injection Eu as Eu. injection Ec as Ec.
    rewrite seq_S, !map_app. cbn [map Nat.add].
    split; [reflexivity|]. split; [rewrite <- Eu, <- app_assoc; reflexivity|].
    split; [rewrite <- Ec, <- app_assoc; reflexivity|]. split.
    + intros j Hj. destruct (Nat.eq_dec j k) as [->|Hne]; [rewrite Ep, Epr; reflexivity|].
      apply Hp. lia.
    + split; [|split].
      * rewrite Ee, qsum_app, He. simpl. ring.
      * rewrite Et, qsum_app, Ht. simpl. ring.
      * rewrite Ecv. destruct (negb _); lia.
Qed.

(** ** Lemmas: sums over the day *)

Lemma qsum_map_Qeq {A} (f g : A -> Q) (l : list A) :
  (forall x, In x l -> (f x == g x)%Q) -> (qsum (map f l) == qsum (map g l))%Q.
Proof.
  induction l as [|x l IH]; intros H; simpl; [reflexivity|].
  rewrite (H x (or_introl eq_refl)), IH by (intros; apply H; right; assumption). reflexivity.
Qed.

Lemma qsum_map_plus {A} (f g : A -> Q) (l : list A) :
  (qsum (map (fun x => f x + g x)%Q l) == qsum (map f l) + qsum (map g l))%Q.
Proof. induction l as [|x l IH]; simpl; [ring|]. rewrite IH. ring. Qed.

Lemma qsum_const (c : Q) (l : list nat) :
  (qsum (map (fun _ => c) l) == inject_Z (Z.of_nat (List.length l)) * c)%Q.
Proof.
  induction l as [|x l IH]; [simpl; ring|].
  cbn [map qsum fold_right]. fold (qsum (map (fun _ : nat => c) l)). rewrite IH.
  rewrite length_cons, Nat2Z.inj_succ, <- Z.add_1_r, inject_Z_plus. ring.
Qed.

Lemma qsum_zero {A} (l : list A) : (qsum (map (fun _ => 0%Q) l) == 0)%Q.
Proof. induction l as [|x l IH]; simpl; [reflexivity|]. rewrite IH. ring. Qed.

Lemma qsum_swap {A B} (g : A -> B -> Q) (la : list A) (lb : list B) :
  (qsum (map (fun b => qsum (map (fun a => g a b) la)) lb) ==
   qsum (map (fun a => qsum (map (fun b => g a b) lb)) la))%Q.
Proof.
  induction la as [|a la IH]; simpl.
  - apply qsum_zero.
  - rewrite qsum_map_plus, IH. reflexivity.
Qed.

(** The usage accumulated by the appliance loop of one hour. *)
Lemma appliance_usage_qsum (apps : list Appliance) (h : Z) (u : Q) :
  (appliance_usage apps h u == u + qsum (map (fun a => hour_draw a h) apps))%Q.
Proof.
  unfold appliance_usage. revert u.
  induction apps as [|a apps IH]; intros u; simpl; [ring|].
  rewrite IH. unfold hour_draw.
  destruct (scheduled_start a) as [start|]; [|ring].
  destruct (Qeq_bool (durationHours a) 0); [ring|].
  destruct (_ && _); ring.
Qed.

(** Hours [0 .. n-1] inside the window [[s, e)]. *)
Lemma qsum_window (c : Q) (s e : Z) (n : nat) :
  0 <= s ->
  (qsum (map (fun j => if (s <=? Z.of_nat j) && (Z.of_nat j <? e) then c else 0%Q) (seq 0 n))
   == c * inject_Z (Z.max 0 (Z.min e (Z.of_nat n) - s)))%Q.
Proof.
  intros Hs. induction n as [|n IH].
  - simpl. replace (Z.max 0 (Z.min e 0 - s)) with 0 by lia. ring.
  - rewrite seq_S, map_app, qsum_app, IH. cbn [map qsum fold_right Nat.add].
    destruct ((s <=? Z.of_nat n) && (Z.of_nat n <? e)) eqn:E.
    + apply andb_true_iff in E. destruct E as [E1 E2].
      apply Z.leb_le in E1. apply Z.ltb_lt in E2.
      replace (Z.max 0 (Z.min e (Z.of_nat (S n)) - s))
        with (Z.max 0 (Z.min e (Z.of_nat n) - s) + 1) by lia.
      rewrite inject_Z_plus. ring.
    + replace (Z.max 0 (Z.min e (Z.of_nat (S n)) - s))
        with (Z.max 0 (Z.min e (Z.of_nat n) - s)).
      * ring.
      * apply andb_false_iff in E. destruct E as [E|E];
          [apply Z.leb_gt in E | apply Z.ltb_ge in E]; lia.
Qed.

Lemma Qle_bool_inject (x y : Z) : Qle_bool (inject_Z x) (inject_Z y) = (x <=? y).
Proof.
  destruct (x <=? y) eqn:E.
  - apply Qle_bool_iff. rewrite <- Zle_Qle. apply Z.leb_le. exact E.
  - destruct (Qle_bool (inject_Z x) (inject_Z y)) eqn:F; [|reflexivity].
    apply Qle_bool_iff in F. rewrite <- Zle_Qle in F. apply Z.leb_gt in E. lia.
Qed.

(** An appliance with an integer run inside the day draws its
    [energy_required] over the hours [0..23]. *)
Lemma hour_draw_day (a : Appliance) (s d : Z) :
  scheduled_start a = Some s -> (durationHours a == inject_Z d)%Q ->
  0 <= d -> 0 <= s -> s + d <= 24 ->
  (qsum (map (fun j => hour_draw a (Z.of_nat j)) (seq 0 24)) == energy_required a)%Q.
Proof.
  intros Hs Hd Hd0 Hs0 Hsd. unfold energy_required. rewrite Hd.
  destruct (Z.eq_dec d 0) as [->|Hne].
  - rewrite (qsum_map_Qeq _ (fun _ => 0%Q)).
    + rewrite qsum_zero. ring.
    + intros j _. unfold hour_draw. rewrite Hs.
      replace (Qeq_bool (durationHours a) 0) with true by (symmetry; apply Qeq_bool_iff; exact Hd).
      reflexivity.
  - rewrite (qsum_map_Qeq _ (fun j => if (s <=? Z.of_nat j) && (Z.of_nat j <? s + d)
                                       then powerkW a else 0%Q)).
    + rewrite qsum_window by exact Hs0. change (Z.of_nat 24) with 24.
      replace (Z.max 0 (Z.min (s + d) 24 - s)) with d by lia. reflexivity.
    + intros j _. unfold hour_draw. rewrite Hs.
      replace (Qeq_bool (durationHours a) 0) with false.
      2: { symmetry. destruct (Qeq_bool (durationHours a) 0) eqn:E; [|reflexivity].
           apply Qeq_bool_iff in E. rewrite Hd in E. unfold Qeq in E. simpl in E. lia. }
      rewrite Qle_bool_inject.
      replace (Qlt_bool (inject_Z (Z.of_nat j)) (inject_Z s + durationHours a))
        with (Z.of_nat j <? s + d).
      * reflexivity.
      * destruct (Z.of_nat j <? s + d) eqn:E; symmetry.
        -- apply Qlt_bool_iff. rewrite Hd, <- inject_Z_plus, <- Zlt_Qlt. apply Z.ltb_lt. exact E.
        -- destruct (Qlt_bool _ _) eqn:F; [|reflexivity]. apply Qlt_bool_iff in F.
           rewrite Hd, <- inject_Z_plus, <- Zlt_Qlt in F. apply Z.ltb_ge in E. lia.
Qed.

(** ** Lemmas: the thermostat during the simulated day *)

Lemma py_index_In {A} (l : list A) (i : Z) (v : A) : py_index l i = Some v -> In v l.
Proof.
  unfold py_index. destruct (0 <=? i); [apply nth_error_In|].
  destruct (0 <=? _); [apply nth_error_In | discriminate].
Qed.

Lemma comfortable_set (t : HVACSystem) (v : Q) :
  within_comfort t v -> is_comfortable (set_hvac_temp t v) = true.
Proof.
  intros [H1 H2]. unfold is_comfortable, set_hvac_temp. simpl.
  apply andb_true_iff. split; apply Qle_bool_iff; assumption.
Qed.

(** With every setpoint inside the comfort bounds, and either a setpoint
    for every hour or a comfortable starting temperature, no hour counts a
    violation. *)
Lemma simulate_day_comfort_zero (st : Household) (schedule : Schedule) (sp : list Q)
    (m : Metrics) (st' : Household) :
  simulate_day st schedule sp = Some (m, st') ->
  (forall v, In v sp -> within_comfort (hvac st) v) ->
  (24 <= List.length sp)%nat \/ is_comfortable (hvac st) = true ->
  comfort_violations m = 0.
Proof.
  intros H Hsp Hor. destruct (simulate_day_inv _ _ _ _ _ H)
    as [s [E [_ [_ [_ [_ [_ [_ [_ [Ecv _]]]]]]]]]].
  rewrite Ecv.
  refine (proj1 (proj2 (proj2 (fold_opt_seq_ind _ (fun n s =>
     minTemp (hs_hvac s) = minTemp (hvac st) /\ maxTemp (hs_hvac s) = maxTemp (hvac st) /\
     hs_comfort_violations s = 0 /\
     (is_comfortable (hs_hvac s) = true \/ (24 <= List.length sp)%nat)) 24 _ s _ _ E)))).
  - simpl. split; [reflexivity|]. split; [reflexivity|]. split; [reflexivity|].
    destruct Hor; auto.
  - intros k c c' Hk [Hmin [Hmax [Hcv Hc]]] Hs.
    apply hour_step_inv in Hs.
    destruct Hs as [price [[[C [v [Hv Ht]]]|[C Ht]] [_ [Ecv' _]]]]; rewrite Ht in *.
    + assert (Hw : within_comfort (hs_hvac c) v)
        by (unfold within_comfort; rewrite Hmin, Hmax; apply Hsp; eapply py_index_In; exact Hv).
      pose proof (comfortable_set _ _ Hw) as Hcf.
      rewrite Ecv', Hcf. simpl. auto.
    + destruct Hc as [Hc|Hc].
      * rewrite Ecv', Hc. simpl. auto.
      * exfalso. apply andb_false_iff in C. destruct C as [C|C].
        -- apply negb_false_iff, Nat.eqb_eq in C. lia.
        -- apply Z.ltb_ge in C. lia.
Qed.

(** With no setpoints, the thermostat keeps its temperature all day. *)
Lemma simulate_day_comfort_none (st : Household) (schedule : Schedule)
    (m : Metrics) (st' : Household) :
  simulate_day st schedule [] = Some (m, st') ->
  comfort_violations m = if is_comfortable (hvac st) then 0 else 24.
Proof.
  intros H. destruct (simulate_day_inv _ _ _ _ _ H)
    as [s [E [_ [_ [_ [_ [_ [_ [_ [Ecv _]]]]]]]]]].
  rewrite Ecv.
  refine (proj2 (fold_opt_seq_ind _ (fun n s =>
     hs_hvac s = hvac st /\
     hs_comfort_violations s = if is_comfortable (hvac st) then 0 else Z.of_nat n) 24 _ s _ _ E)).
  - simpl. split; [reflexivity|]. destruct (is_comfortable (hvac st)); reflexivity.
  - intros k c c' Hk [Ht Hcv] Hs.
    apply hour_step_inv in Hs.
    destruct Hs as [price [[[C _]|[_ Ht']] [_ [Ecv' _]]]]; [discriminate|].
    rewrite Ht', Ht in *. split; [reflexivity|]. rewrite Ecv', Hcv.
    destruct (is_comfortable (hvac st)); simpl; lia.
Qed.

Lemma count_missed_bound (apps : list Appliance) :
  0 <= count_missed apps <= Z.of_nat (List.length apps).
Proof.
  unfold count_missed.
  assert (G : forall n, 0 <= n ->
            n <= fold_left (fun n a => if misses_deadline a then n + 1 else n) apps n
              <= n + Z.of_nat (List.length apps)).
  { induction apps as [|a apps IH]; intros n Hn; simpl; [lia|].
    destruct (misses_deadline a); [specialize (IH (n + 1) ltac:(lia)) | specialize (IH n Hn)]; lia. }
  specialize (G 0 ltac:(lia)). lia.
Qed.

Lemma simulate_day_apps_length (st : Household) (schedule : Schedule) (sp : list Q)
    (m : Metrics) (st' : Household) :
  simulate_day st schedule sp = Some (m, st') ->
  List.length (appliances st') = List.length (appliances st).
Proof.
  intros H. destruct (simulate_day_inv _ _ _ _ _ H) as [s [_ [Ea _]]].
  rewrite Ea, <- (length_map static_fields), static_apply_schedule, static_reset, length_map.
  reflexivity.
Qed.

Lemma nth_error_map_seq {A} (f : nat -> A) (n len : nat) :
  (n < len)%nat -> nth_error (map f (seq 0 len)) n = Some (f n).
Proof.
  intros H. rewrite nth_error_map, (nth_error_nth' (seq 0 len) 0%nat) by (rewrite length_seq; lia).
  rewrite seq_nth by lia. reflexivity.
Qed.

(** The metrics of a simulated day, hour by hour. *)
Lemma simulate_day_hours (st : Household) (schedule : Schedule) (sp : list Q)
    (m : Metrics) (st' : Household) :
  simulate_day st schedule sp = Some (m, st') ->
  let apps := apply_schedule schedule (map reset_appliance (appliances st)) in
  let u := fun j : nat => (appliance_usage apps (Z.of_nat j) 0 + hvac_powerkW (hvac st))%Q in
  let pr := fun j : nat =>
    match get_price (tou_pricing st) (Z.of_nat j) with Some p => p | None => 0%Q end in
  appliances st' = apps /\
  m_hourly_usage m = map u (seq 0 24) /\
  m_hourly_costs m = map (fun j => u j * pr j)%Q (seq 0 24) /\
  (forall j, (j < 24)%nat -> get_price (tou_pricing st) (Z.of_nat j) = Some (pr j)) /\
  (total_kwh m == qsum (map u (seq 0 24)))%Q /\
  (total_cost m == qsum (map (fun j => u j * pr j)%Q (seq 0 24)))%Q /\
  0 <= comfort_violations m <= 24.
Proof.
  intros H apps u pr.
  destruct (simulate_day_inv _ _ _ _ _ H)
    as [s [E [Ea [_ [_ [Ek [Ec [Eu [Eco [Ecv _]]]]]]]]]].
  destruct (hour_loop_state _ _ _ _ 24 s (le_n 24) E) as [_ [U [C [G [EE [EC CV]]]]]].
  split; [exact Ea|].
  split; [rewrite Eu, U, Nat.sub_diag, app_nil_r; reflexivity|].
  split; [rewrite Eco, C, Nat.sub_diag, app_nil_r; reflexivity|].
  split; [exact G|].
  split; [rewrite Ek; exact EE|].
  split; [rewrite Ec; exact EC|].
  rewrite Ecv. exact CV.
Qed.

(** ** Lemmas: the thermostat across [plan_day] *)

(** After a simulated day the thermostat's setpoint is the one it had or
    one of the setpoints of the curve. *)
Lemma simulate_day_setpoint (st : Household) (schedule : Schedule) (sp : list Q)
    (m : Metrics) (st' : Household) :
  simulate_day st schedule sp = Some (m, st') ->
  setpoint (hvac st') = setpoint (hvac st) \/ In (setpoint (hvac st')) sp.
Proof.
  intros H. destruct (simulate_day_inv _ _ _ _ _ H) as [s [E [_ [Eh _]]]].
  rewrite Eh.
  refine (fold_opt_inv (fun s => setpoint (hs_hvac s) = setpoint (hvac st) \/
                                 In (setpoint (hs_hvac s)) sp) _ _ _ s _ _ E).
  - intros x y z Hx Hz. apply hour_step_inv in Hz.
    destruct Hz as [price [[[_ [v [Hv Ht]]]|[_ Ht]] _]]; rewrite Ht.
    + right. simpl. eapply py_index_In. exact Hv.
    + exact Hx.
  - left. reflexivity.
Qed.

(** The setpoints of [_greedy_policy]: 24 of them, each the base setpoint
    or [min(max_temp, base + 2)]. *)
Lemma greedy_policy_setpoints (st : Household) (sched : Schedule) (sp : list Q) :
  greedy_policy st = Some (sched, sp) ->
  List.length sp = 24%nat /\
  forall v, In v sp -> v = setpoint (hvac st) \/
                      v = py_min (maxTemp (hvac st)) (setpoint (hvac st) + 2)%Q.
Proof.
  unfold greedy_policy. intros H.
  destruct (tou_prices st) as [prices|]; cbn [obind] in H; [|discriminate].
  destruct (fold_opt _ _ _) as [s|]; cbn [obind] in H; [|discriminate].
  destruct (greedy_hvac _ _ _) as [g|] eqn:Eg; cbn [obind] in H; [|discriminate].
  injection H as _ <-. unfold greedy_hvac in Eg.
  destruct (peak_threshold prices) as [thr|]; cbn [obind] in Eg; [|discriminate].
  split; [rewrite (map_opt_length _ _ _ Eg); reflexivity|].
  intros v Hv. destruct (map_opt_In _ _ _ _ Eg Hv) as [h [_ Hh]].
  destruct (py_index prices h); cbn [obind] in Hh; [|discriminate].
  injection Hh as <-. destruct (Qle_bool thr q); auto.
Qed.

Lemma py_min_between (max_t base : Q) :
  (base <= max_t)%Q -> (base <= py_min max_t (base + 2) <= max_t)%Q.
Proof.
  intros H. unfold py_min. destruct (Qlt_bool (base + 2) max_t) eqn:E.
  - apply Qlt_bool_iff in E. split; [|apply Qlt_le_weak; exact E].
    rewrite <- (Qplus_0_r base) at 1. apply Qplus_le_r. discriminate.
  - split; [exact H | apply Qle_refl].
Qed.

(** ** Lemmas: what the greedy policy reads of the household *)

Lemma insert_by_Forall2 {A} (R : A -> A -> Prop) (le : A -> A -> bool) (x y : A) (l1 l2 : list A) :
  (forall a b c d, R a b -> R c d -> le a c = le b d) ->
  R x y -> Forall2 R l1 l2 -> Forall2 R (insert_by le x l1) (insert_by le y l2).
Proof.
  intros Hle Hxy H. induction H as [|a b l1 l2 Hab H IH]; simpl.
  - constructor; [exact Hxy | constructor].
  - rewrite (Hle x y a b Hxy Hab). destruct (le y b).
    + constructor; [exact Hxy|]. constructor; assumption.
    + constructor; [exact Hab | exact IH].
Qed.

Lemma sort_by_Forall2 {A} (R : A -> A -> Prop) (le : A -> A -> bool) (l1 l2 : list A) :
  (forall a b c d, R a b -> R c d -> le a c = le b d) ->
  Forall2 R l1 l2 -> Forall2 R (sort_by le l1) (sort_by le l2).
Proof.
  intros Hle H. induction H as [|a b l1 l2 Hab H IH]; simpl; [constructor|].
  apply insert_by_Forall2; assumption.
Qed.

Lemma map_eq_Forall2 {A B} (f : A -> B) (l1 l2 : list A) :
  map f l1 = map f l2 -> Forall2 (fun a b => f a = f b) l1 l2.
Proof.
  revert l2. induction l1 as [|a l1 IH]; intros [|b l2] H; simpl in H;
    try discriminate; constructor.
  - congruence.
  - apply IH. congruence.
Qed.

Lemma choose_start_static (prices : list Q) (a b : Appliance) :
  static_fields a = static_fields b -> choose_start prices a = choose_start prices b.
Proof.
  unfold static_fields. intros H. injection H as Hn Hp Hd Hdl Hf.
  unfold choose_start, latest_start, candidate_step, eff_duration.
  rewrite Hp, Hd, Hdl. reflexivity.
Qed.

Lemma greedy_fold_static (prices : list Q) (l1 l2 : list Appliance) (sched : Schedule) :
  Forall2 (fun a b => static_fields a = static_fields b) l1 l2 ->
  fold_opt (fun schedule a =>
              best_start <- choose_start prices a ;;
              dict_append schedule best_start (name a)) l1 sched =
  fold_opt (fun schedule a =>
              best_start <- choose_start prices a ;;
              dict_append schedule best_start (name a)) l2 sched.
Proof.
  intros H. revert sched. induction H as [|a b l1 l2 Hab H IH]; intros sched; simpl;
    [reflexivity|].
  rewrite (choose_start_static prices a b Hab).
  replace (name a) with (name b) by (unfold static_fields in Hab; congruence).
  destruct (choose_start prices b); cbn [obind]; [|reflexivity].
  destruct (dict_append _ _ _); cbn [obind]; [apply IH | reflexivity].
Qed.

(** [_greedy_policy] reads only the tariff, the configuration of the
    appliances and the thermostat's setpoint and upper bound. *)
Lemma greedy_policy_congr (st1 st2 : Household) :
  tou_pricing st1 = tou_pricing st2 ->
  map static_fields (appliances st1) = map static_fields (appliances st2) ->
  setpoint (hvac st1) = setpoint (hvac st2) -> maxTemp (hvac st1) = maxTemp (hvac st2) ->
  greedy_policy st1 = greedy_policy st2.
Proof.
  intros Ht Ha Hs Hm. unfold greedy_policy, tou_prices. rewrite Ht, Hs, Hm.
  destruct (map_opt _ _) as [prices|]; cbn [obind]; [|reflexivity].
  rewrite (greedy_fold_static prices _
            (sort_by (fun a b => deadlineHour a <=? deadlineHour b) (appliances st2))).
  - reflexivity.
  - apply sort_by_Forall2.
    + intros a b c d Hab Hcd. unfold static_fields in Hab, Hcd. congruence.
    + apply map_eq_Forall2. exact Ha.
Qed.

(** ** Lemmas: the flags set by the schedule application *)

Lemma str_in_iff (x : string) (l : list string) : str_in x l = true <-> In x l.
Proof.
  unfold str_in. rewrite existsb_exists. split.
  - intros [y [Hy E]]. apply String.eqb_eq in E. subst. exact Hy.
  - intros H. exists x. split; [exact H | apply String.eqb_refl].
Qed.

Lemma names_assign_first (n : string) (hour : Z) (apps : list Appliance) :
  map name (assign_first n hour apps) = map name apps.
Proof.
  induction apps as [|a apps IH]; simpl; [reflexivity|].
  destruct (String.eqb (name a) n); simpl; [reflexivity | f_equal; exact IH].
Qed.

(** [assign_first] marks the position of the first appliance named [n]. *)
Lemma assign_first_nth (n : string) (hour : Z) (apps : list Appliance) (i : nat) (a : Appliance) :
  nth_error apps i = Some a ->
  nth_error (assign_first n hour apps) i =
    Some (if String.eqb (name a) n && negb (str_in n (firstn i (map name apps)))
          then mark_scheduled hour a else a).
Proof.
  revert i. induction apps as [|b apps IH]; intros [|i] H; simpl in H; try discriminate.
  - injection H as <-. simpl. destruct (String.eqb (name b) n); reflexivity.
  - simpl. destruct (String.eqb (name b) n) eqn:E; simpl.
    + rewrite H. unfold str_in. simpl. apply String.eqb_eq in E. rewrite E, String.eqb_refl.
      simpl. rewrite andb_false_r. reflexivity.
    + rewrite (IH i H). unfold str_in. simpl.
      replace (String.eqb n (name b)) with false
        by (symmetry; rewrite String.eqb_sym; exact E).
      reflexivity.
Qed.

(** The flags of the appliance list while the schedule is applied, [N]
    being the names handled so far. *)
Definition flags_inv (l : list Appliance) (N : list string) : Prop :=
  forall i a, nth_error l i = Some a ->
    (isScheduled a = true <-> In (name a) N /\ ~ In (name a) (firstn i (map name l))) /\
    (isScheduled a = true <-> exists h, scheduled_start a = Some h) /\
    scheduledStart a = scheduled_start a.

Lemma flags_inv_assign (l : list Appliance) (N : list string) (n : string) (hour : Z) :
  flags_inv l N -> flags_inv (assign_first n hour l) (N ++ [n]).
Proof.
  intros Inv i a' Ha'.
  assert (Hl : nth_error l i <> None).
  { intros E. apply nth_error_None in E.
    assert (E' : nth_error (assign_first n hour l) i = None).
    { apply nth_error_None. rewrite <- (length_map name), names_assign_first, length_map. exact E. }
    congruence. }
  destruct (nth_error l i) as [a|] eqn:Ha; [|contradiction]. clear Hl.
  rewrite (assign_first_nth n hour l i a Ha) in Ha'. injection Ha' as <-.
  rewrite names_assign_first.
  destruct (Inv i a Ha) as [F1 [F2 F3]].
  destruct (String.eqb (name a) n && negb (str_in n (firstn i (map name l)))) eqn:C.
  - apply andb_true_iff in C. destruct C as [C1 C2].
    apply String.eqb_eq in C1. apply negb_true_iff in C2.
    cbn [isScheduled scheduled_start scheduledStart name mark_scheduled].
    split; [|split; [|reflexivity]].
    + split; [intros _|reflexivity]. split; [apply in_or_app; right; left; symmetry; exact C1|].
      intros Hin. rewrite C1 in Hin. apply str_in_iff in Hin. congruence.
    + split; [intros _; eexists; reflexivity | reflexivity].
  - split; [|split; assumption].
    destruct (String.eqb (name a) n) eqn:E.
    + apply String.eqb_eq in E. simpl in C. apply negb_false_iff, str_in_iff in C.
      rewrite E. split.
      * intros Hs. exfalso. apply F1 in Hs. rewrite E in Hs. destruct Hs as [_ Hs]. exact (Hs C).
      * intros [_ Hs]. contradiction.
    + rewrite F1. split; intros [H1 H2]; split; try exact H2.
      * apply in_or_app. left. exact H1.
      * apply in_app_or in H1. destruct H1 as [H1|[H1|[]]]; [exact H1|].
        subst n. rewrite String.eqb_refl in E. discriminate.
Qed.

Lemma flags_inv_names (names : list string) (hour : Z) (l : list Appliance) (N : list string) :
  flags_inv l N ->
  flags_inv (fold_left (fun apps n => assign_first n hour apps) names l) (N ++ names).
Proof.
  revert l N. induction names as [|n names IH]; intros l N H; simpl.
  - rewrite app_nil_r. exact H.
  - replace (N ++ n :: names) with ((N ++ [n]) ++ names) by (rewrite <- app_assoc; reflexivity).
    apply IH. apply flags_inv_assign. exact H.
Qed.

Lemma names_apply_names (names : list string) (hour : Z) (l : list Appliance) :
  map name (fold_left (fun apps n => assign_first n hour apps) names l) = map name l.
Proof.
  revert l. induction names as [|n names IH]; intros l; simpl; [reflexivity|].
  rewrite IH. apply names_assign_first.
Qed.

Lemma flags_inv_apply (schedule : Schedule) (l : list Appliance) (N : list string) :
  flags_inv l N -> flags_inv (apply_schedule schedule l) (N ++ scheduled_names schedule).
Proof.
  unfold apply_schedule, scheduled_names. revert l N.
  induction schedule as [|[hour names] schedule IH]; intros l N H; simpl.
  - rewrite app_nil_r. exact H.
  - rewrite app_assoc. apply IH. apply flags_inv_names. exact H.
Qed.

Lemma names_apply_schedule (schedule : Schedule) (l : list Appliance) :
  map name (apply_schedule schedule l) = map name l.
Proof.
  unfold apply_schedule. revert l.
  induction schedule as [|[hour names] schedule IH]; intros l; simpl; [reflexivity|].
  rewrite IH. apply names_apply_names.
Qed.

Lemma flags_inv_reset (apps : list Appliance) : flags_inv (map reset_appliance apps) [].
Proof.
  intros i a H. rewrite nth_error_map in H.
  destruct (nth_error apps i); cbn [option_map] in H; [|discriminate].
  injection H as <-. simpl. split; [|split; [|reflexivity]].
  - split; [discriminate | intros [[] _]].
  - split; [discriminate | intros [h Hh]; discriminate].
Qed.

(** ** Lemmas: explanations and the daily price table *)

Lemma string_app_assoc (x y z : string) : ((x ++ y) ++ z = x ++ (y ++ z))%string.
Proof. induction x as [|c x IH]; simpl; [reflexivity | rewrite IH; reflexivity]. Qed.

Lemma find_existsb_none {A} (f : A -> bool) (l : list A) :
  find f l = None -> existsb f l = false.
Proof.
  induction l as [|x l IH]; simpl; [reflexivity|].
  destruct (f x); [discriminate | exact IH].
Qed.

Lemma find_existsb_some {A} (f : A -> bool) (l : list A) (x : A) :
  find f l = Some x -> existsb f l = true.
Proof.
  intros H. apply find_some in H. destruct H as [Hin Hx].
  apply existsb_exists. exists x. auto.
Qed.

(** An explanation is produced exactly for an appliance listed at some
    hour of the day, and it opens with the appliance's name. *)
Lemma explain_appliance_shape (prices : list Q) (thr : option Q) (db : Q)
    (schedule : Schedule) (gm : list (string * PyVal)) (a : Appliance) :
  match explain_appliance prices thr db schedule gm a with
  | Some s => listed_in_day schedule a = true /\
              exists rest, s = (name a ++ " was scheduled at hour " ++ rest)%string
  | None => listed_in_day schedule a = false
  end.
Proof.
  unfold explain_appliance, listed_in_day.
  destruct (find_start_hour schedule (name a)) as [h|] eqn:E; unfold find_start_hour in E.
  - cbv beta iota zeta. split; [exact (find_existsb_some _ _ _ E)|].
    destruct (is_number _); [destruct (Qle_bool _ _)|]; cbn [String.concat];
      rewrite ?string_app_assoc; eexists; reflexivity.
  - exact (find_existsb_none _ _ E).
Qed.

Lemma explanations_fold (prices : list Q) (thr : option Q) (db : Q)
    (schedule : Schedule) (gm : list (string * PyVal)) (apps : list Appliance)
    (acc : list string) :
  exists l,
    fold_left (fun explanations a =>
        match explain_appliance prices thr db schedule gm a with
        | Some s => explanations ++ [s]
        | None => explanations
        end) apps acc = acc ++ l /\
    Forall2 (fun a s => exists rest, s = (name a ++ " was scheduled at hour " ++ rest)%string)
      (filter (listed_in_day schedule) apps) l.
Proof.
  revert acc. induction apps as [|a apps IH]; intros acc; simpl.
  - exists []. rewrite app_nil_r. split; [reflexivity | constructor].
  - pose proof (explain_appliance_shape prices thr db schedule gm a) as S.
    destruct (explain_appliance prices thr db schedule gm a) as [s|].
    + destruct S as [L R]. rewrite L.
      destruct (IH (acc ++ [s])) as [l [E F]].
      exists (s :: l). rewrite E, <- app_assoc. split; [reflexivity|].
      constructor; assumption.
    + rewrite S. exact (IH acc).
Qed.

Lemma combine_map_self {A B} (g : A -> B) (l : list A) :
  combine l (map g l) = map (fun x => (x, g x)) l.
Proof. induction l as [|x l IH]; simpl; [reflexivity | rewrite IH; reflexivity]. Qed.

Lemma tou_prices_any (st : Household) (pt : string) :
  tou_pricing st = new_TOUPricing pt ->
  tou_prices st = Some (map (band_price pt) (py_range 0 24)).
Proof.
  intros Ht. unfold tou_prices. rewrite Ht. apply map_opt_pure. intros h Hh.
  apply In_py_range_iff in Hh. rewrite get_price_any, Z.mod_small by lia. reflexivity.
Qed.

Lemma explanation_threshold_24 (prices : list Q) :
  List.length prices = 24%nat ->
  exists thr, explanation_threshold prices = Some (Some thr).
Proof.
  intros Hl. unfold explanation_threshold. rewrite (peak_threshold_18 prices Hl).
  pose proof (sort_by_length Qle_bool prices) as L. rewrite Hl in L.
  destruct (sort_by Qle_bool prices) as [|q l] eqn:Es; [discriminate|].
  destruct (nth_error (q :: l) 18) as [thr|] eqn:En.
  - exists thr. reflexivity.
  - apply nth_error_None in En. rewrite L in En. lia.
Qed.

Lemma NoDup_nth_firstn {A} (l : list A) (i : nat) (x : A) :
  NoDup l -> nth_error l i = Some x -> ~ In x (firstn i l).
Proof.
  revert i. induction l as [|y l IH]; intros [|i] Hd Hx; simpl in Hx; try discriminate.
  - simpl. tauto.
  - inversion Hd as [|? ? Hy Hd']; subst. simpl. intros [<-|Hin].
    + apply Hy. eapply nth_error_In. exact Hx.
    + exact (IH i Hd' Hx Hin).
Qed.

Lemma filter_names (p : string -> bool) (l : list Appliance) :
  (forall a, In a l -> negb (isScheduled a) = p (name a)) ->
  map name (filter (fun a => negb (isScheduled a)) l) = filter p (map name l).
Proof.
  induction l as [|a l IH]; intros H; simpl; [reflexivity|].
  rewrite (H a (or_introl eq_refl)).
  destruct (p (name a)); simpl; rewrite IH by (intros; apply H; right; assumption);
    reflexivity.
Qed.

(** ** Theorems: the rest of the code *)

(** X1: [_baseline_policy] returns (raises no [KeyError]) exactly when the
    run lengths [max(1, int(duration_hours))] of all appliances but the
    last add up to less than 24. *)
Theorem baseline_policy_defined (st : Household) :
  baseline_policy st <> None <->
  zsum (map eff_duration (removelast (appliances st))) < 24.
Proof.
  pose proof (baseline_loop_total (appliances st) empty_schedule 0 empty_schedule_keys
                ltac:(lia)) as T.
  unfold baseline_policy.
  destruct (baseline_loop (appliances st) empty_schedule 0) as [s|] eqn:E; cbn [obind].
  - split; [|intros _; discriminate]. intros _.
    destruct (proj1 T ltac:(discriminate)) as [H|H]; [rewrite H; simpl; lia | lia].
  - split; [intros H; exfalso; apply H; reflexivity|]. intros H. exfalso.
    apply T; [right; lia | reflexivity].
Qed.

(** X2: when [_baseline_policy] returns, its schedule keeps the keys
    [0..23], lists every appliance name exactly as often as the household
    has it, and lists the [k]-th appliance at the hour equal to the sum of
    the run lengths of the appliances before it. *)
Theorem baseline_policy_schedule (st : Household) (sched : Schedule) (sp : list Q) :
  baseline_policy st = Some (sched, sp) ->
  map fst sched = py_range 0 24 /\
  Permutation (scheduled_names sched) (map name (appliances st)) /\
  (forall k a, nth_error (appliances st) k = Some a ->
     exists vs, dict_get sched (zsum (map eff_duration (firstn k (appliances st)))) = Some vs /\
                In (name a) vs).
Proof.
  unfold baseline_policy. intros H.
  destruct (baseline_loop (appliances st) empty_schedule 0) as [s|] eqn:E;
    cbn [obind] in H; [|discriminate].
  injection H as <- _.
  destruct (baseline_loop_spec _ _ _ _ empty_schedule_keys E) as [K [P [_ Pos]]].
  split; [exact K|]. split.
  - rewrite app_nil_r in P. exact P.
  - intros k a Ha. exact (Pos k a Ha).
Qed.

Lemma baseline_policy_schedule_witness :
  exists sched sp,
    baseline_policy (make_default_env 600 "standard") = Some (sched, sp) /\
    map fst sched = py_range 0 24 /\
    Permutation (scheduled_names sched) (map name default_appliances) /\
    (forall k a, nth_error default_appliances k = Some a ->
       exists vs, dict_get sched (zsum (map eff_duration (firstn k default_appliances))) = Some vs /\
                  In (name a) vs).
Proof.
  destruct (baseline_policy (make_default_env 600 "standard")) as [[sched sp]|] eqn:E;
    [|vm_compute in E; discriminate].
  exists sched, sp. split; [reflexivity|].
  exact (baseline_policy_schedule (make_default_env 600 "standard") sched sp E).
Defined.

(** X3: for a household on one of the three pricing tables,
    [_greedy_policy] returns a schedule that keeps the keys [0..23] and
    lists every appliance name exactly as often as the household has it,
    together with 24 setpoints. *)
Theorem greedy_policy_schedule (st : Household) (p : Profile) :
  tou_pricing st = new_TOUPricing (profile_name p) ->
  exists sched sp, greedy_policy st = Some (sched, sp) /\
    map fst sched = py_range 0 24 /\
    Permutation (scheduled_names sched) (map name (appliances st)) /\
    List.length sp = 24%nat.
Proof.
  intros Ht.
  destruct (greedy_policy_profile st p Ht) as [sched [sp [Eg [Eh _]]]].
  exists sched, sp. split; [exact Eg|].
  unfold greedy_policy in Eg. rewrite (tou_prices_profile st p Ht) in Eg. cbn [obind] in Eg.
  destruct (greedy_loop_spec p
              (sort_by (fun a b => deadlineHour a <=? deadlineHour b) (appliances st))
              empty_schedule empty_schedule_keys) as [s [Es [Ks _]]].
  rewrite Es in Eg. cbn [obind] in Eg.
  rewrite Eh in Eg. cbn [obind] in Eg.
  injection Eg as <-. split; [exact Ks|]. split.
  - eapply perm_trans; [exact (greedy_loop_perm _ _ _ _ Es)|].
    unfold empty_schedule, scheduled_names. simpl. rewrite app_nil_r.
    apply Permutation_map, sort_by_perm.
  - unfold greedy_hvac in Eh. destruct (peak_threshold _); cbn [obind] in Eh; [|discriminate].
    rewrite (map_opt_length _ _ _ Eh). reflexivity.
Qed.

Lemma greedy_policy_schedule_witness :
  exists sched sp, greedy_policy (make_default_env 600 "summer") = Some (sched, sp) /\
    map fst sched = py_range 0 24 /\
    Permutation (scheduled_names sched) (map name (appliances (make_default_env 600 "summer"))) /\
    List.length sp = 24%nat.
Proof. apply (greedy_policy_schedule (make_default_env 600 "summer") Summer). reflexivity. Defined.

(** X4: a simulated day reports 24 hourly usages and 24 hourly costs; its
    totals are their sums; the cost of each hour is its usage times the
    tariff of that hour; and the daily budget it reports already counts the
    energy of the simulated day in the month's usage. *)
Theorem simulate_day_totals (st : Household) (schedule : Schedule) (sp : list Q)
    (m : Metrics) (st' : Household) :
  simulate_day st schedule sp = Some (m, st') ->
  List.length (m_hourly_usage m) = 24%nat /\ List.length (m_hourly_costs m) = 24%nat /\
  (total_kwh m == qsum (m_hourly_usage m))%Q /\
  (total_cost m == qsum (m_hourly_costs m))%Q /\
  (forall h, 0 <= h < 24 -> exists price u,
     get_price (tou_pricing st) h = Some price /\
     nth_error (m_hourly_usage m) (Z.to_nat h) = Some u /\
     nth_error (m_hourly_costs m) (Z.to_nat h) = Some (u * price)%Q) /\
  daily_budget_kwh m =
    (if monthDays st - currentDay st + 1 <=? 0 then 0%Q
     else ((monthlyBudget st - (energyUsedMonth st + total_kwh m))
           / inject_Z (monthDays st - currentDay st + 1))%Q).
Proof.
  intros H. pose proof (simulate_day_hours _ _ _ _ _ H) as Hh. cbv beta zeta in Hh.
  destruct Hh as [_ [U [C [G [EE [EC _]]]]]].
  destruct (simulate_day_inv _ _ _ _ _ H)
    as [s [_ [_ [_ [_ [Ek [_ [_ [_ [_ [_ [Eb [Emb [Ecd [Emd Eeu]]]]]]]]]]]]]]].
  split; [rewrite U, length_map, length_seq; reflexivity|].
  split; [rewrite C, length_map, length_seq; reflexivity|].
  split; [rewrite U; exact EE|].
  split; [rewrite C; exact EC|].
  split.
  - intros h Hh. rewrite U, C.
    pose proof (G (Z.to_nat h) ltac:(lia)) as Gh.
    exists (match get_price (tou_pricing st) (Z.of_nat (Z.to_nat h)) with
            | Some p => p | None => 0%Q end).
    eexists. split; [|split; rewrite nth_error_map_seq by lia; reflexivity].
    rewrite Z2Nat.id in Gh |- * by lia. exact Gh.
  - rewrite Eb. unfold get_daily_budget. rewrite Emb, Ecd, Emd, Eeu, Ek. reflexivity.
Qed.

Lemma simulate_day_totals_witness :
  exists m st',
    simulate_day (make_default_env 600 "summer") fixed_schedule [] = Some (m, st') /\
    List.length (m_hourly_usage m) = 24%nat /\ List.length (m_hourly_costs m) = 24%nat /\
    (total_kwh m == qsum (m_hourly_usage m))%Q /\
    (total_cost m == qsum (m_hourly_costs m))%Q /\
    (forall h, 0 <= h < 24 -> exists price u,
       get_price (tou_pricing (make_default_env 600 "summer")) h = Some price /\
       nth_error (m_hourly_usage m) (Z.to_nat h) = Some u /\
       nth_error (m_hourly_costs m) (Z.to_nat h) = Some (u * price)%Q) /\
    daily_budget_kwh m =
      (if 30 - 1 + 1 <=? 0 then 0%Q
       else ((600 - (0 + total_kwh m)) / inject_Z (30 - 1 + 1))%Q).
Proof.
  destruct (simulate_day (make_default_env 600 "summer") fixed_schedule []) as [[m st']|] eqn:E;
    [|vm_compute in E; discriminate].
  exists m, st'. split; [reflexivity|].
  exact (simulate_day_totals (make_default_env 600 "summer") fixed_schedule [] m st' E).
Defined.

(** X5: when every scheduled appliance runs a whole number [d >= 0] of hours
    from a start [s] with [0 <= s] and [s + d <= 24], the day's energy is the
    HVAC power for 24 hours plus the [energy_required] of each scheduled
    appliance. *)
Theorem simulate_day_energy (st : Household) (schedule : Schedule) (sp : list Q)
    (m : Metrics) (st' : Household) :
  simulate_day st schedule sp = Some (m, st') ->
  (forall a s, In a (appliances st') -> scheduled_start a = Some s ->
     exists d, (durationHours a == inject_Z d)%Q /\ 0 <= d /\ 0 <= s /\ s + d <= 24) ->
  (total_kwh m == 24 * hvac_powerkW (hvac st) +
     qsum (map (fun a => match scheduled_start a with
                         | Some _ => energy_required a | None => 0%Q end) (appliances st')))%Q.
Proof.
  intros H Hrun. pose proof (simulate_day_hours _ _ _ _ _ H) as Hh. cbv beta zeta in Hh.
  destruct Hh as [Ea [_ [_ [_ [EE _]]]]].
  rewrite EE, <- Ea.
  rewrite (qsum_map_Qeq _ (fun j => qsum (map (fun a => hour_draw a (Z.of_nat j)) (appliances st'))
                                    + hvac_powerkW (hvac st))%Q).
  2: { intros j _. rewrite appliance_usage_qsum. ring. }
  rewrite qsum_map_plus, qsum_const, length_seq.
  rewrite (qsum_swap (fun a j => hour_draw a (Z.of_nat j))).
  rewrite (qsum_map_Qeq (fun a => qsum (map (fun j => hour_draw a (Z.of_nat j)) (seq 0 24)))
             (fun a => match scheduled_start a with
                       | Some _ => energy_required a | None => 0%Q end)).
  - change (inject_Z (Z.of_nat 24)) with 24%Q. ring.
  - intros a Ha. destruct (scheduled_start a) as [s|] eqn:Es.
    + destruct (Hrun a s Ha Es) as [d [Hd [Hd0 [Hs0 Hsd]]]].
      exact (hour_draw_day a s d Es Hd Hd0 Hs0 Hsd).
    + rewrite (qsum_map_Qeq _ (fun _ => 0%Q)); [apply qsum_zero|].
      intros j _. unfold hour_draw. rewrite Es. reflexivity.
Qed.

Lemma simulate_day_energy_witness :
  exists m st',
    simulate_day (make_default_env 600 "summer") fixed_schedule [] = Some (m, st') /\
    (total_kwh m == 24 * hvac_powerkW default_HVACSystem +
       qsum (map (fun a => match scheduled_start a with
                           | Some _ => energy_required a | None => 0%Q end) (appliances st')))%Q.
Proof.
  destruct (simulate_day (make_default_env 600 "summer") fixed_schedule []) as [[m st']|] eqn:E;
    [|vm_compute in E; discriminate].
  exists m, st'. split; [reflexivity|].
  apply (simulate_day_energy (make_default_env 600 "summer") fixed_schedule [] m st' E).
  destruct (simulate_day_inv _ _ _ _ _ E) as [s [_ [Ea _]]].
  rewrite Ea. intros a s0 Ha Hs. vm_compute in Ha.
  destruct Ha as [<-|[<-|[<-|[]]]]; vm_compute in Hs; injection Hs as <-.
  - exists 2. vm_compute. split; [reflexivity|]. repeat split; discriminate.
  - exists 3. vm_compute. split; [reflexivity|]. repeat split; discriminate.
  - exists 4. vm_compute. split; [reflexivity|]. repeat split; discriminate.
Defined.

(** X6: a day simulated with every setpoint inside the comfort bounds, and
    either a setpoint for each of the 24 hours or a comfortable starting
    temperature, counts no comfort violation; a day simulated with no
    setpoints counts none or all 24 hours, as the starting temperature is
    comfortable or not. *)
Theorem simulate_day_comfort (st : Household) (schedule : Schedule) (sp : list Q)
    (m : Metrics) (st' : Household) :
  simulate_day st schedule sp = Some (m, st') ->
  ((forall v, In v sp -> within_comfort (hvac st) v) ->
   (24 <= List.length sp)%nat \/ is_comfortable (hvac st) = true ->
   comfort_violations m = 0) /\
  (sp = [] -> comfort_violations m = if is_comfortable (hvac st) then 0 else 24).
Proof.
  intros H. split.
  - exact (simulate_day_comfort_zero st schedule sp m st' H).
  - intros ->. exact (simulate_day_comfort_none st schedule m st' H).
Qed.

Lemma simulate_day_comfort_witness :
  exists m st',
    simulate_day (make_default_env 600 "standard") fixed_schedule (repeat 75%Q 24) = Some (m, st') /\
    comfort_violations m = 0.
Proof.
  destruct (simulate_day (make_default_env 600 "standard") fixed_schedule (repeat 75%Q 24))
    as [[m st']|] eqn:E; [|vm_compute in E; discriminate].
  exists m, st'. split; [reflexivity|].
  apply (proj1 (simulate_day_comfort (make_default_env 600 "standard") fixed_schedule
                  (repeat 75%Q 24) m st' E)).
  - intros v Hv. apply repeat_spec in Hv. subst v.
    unfold within_comfort. split; vm_compute; discriminate.
  - left. reflexivity.
Defined.

(** X7: a simulated day counts between 0 and 24 comfort violations and at
    most one missed deadline per appliance of the household. *)
Theorem simulate_day_metric_bounds (st : Household) (schedule : Schedule) (sp : list Q)
    (m : Metrics) (st' : Household) :
  simulate_day st schedule sp = Some (m, st') ->
  0 <= comfort_violations m <= 24 /\
  0 <= missed_deadlines m <= Z.of_nat (List.length (appliances st)).
Proof.
  intros H. pose proof (simulate_day_hours _ _ _ _ _ H) as Hh. cbv beta zeta in Hh.
  destruct Hh as [_ [_ [_ [_ [_ [_ CV]]]]]].
  split; [exact CV|].
  destruct (simulate_day_inv _ _ _ _ _ H) as [s [_ [_ [_ [_ [_ [_ [_ [_ [_ [Em _]]]]]]]]]]].
  rewrite Em, <- (simulate_day_apps_length _ _ _ _ _ H). apply count_missed_bound.
Qed.

Lemma simulate_day_metric_bounds_witness :
  exists m st',
    simulate_day (make_default_env 600 "winter") fixed_schedule [] = Some (m, st') /\
    0 <= comfort_violations m <= 24 /\
    0 <= missed_deadlines m <= 3.
Proof.
  destruct (simulate_day (make_default_env 600 "winter") fixed_schedule [])
    as [[m st']|] eqn:E; [|vm_compute in E; discriminate].
  exists m, st'. split; [reflexivity|].
  exact (simulate_day_metric_bounds (make_default_env 600 "winter") fixed_schedule [] m st' E).
Defined.

(** X8: when the thermostat's setpoint lies inside its comfort bounds,
    [plan_day] reports no comfort violation for the baseline day nor for the
    greedy day. *)
Theorem plan_day_comfort (st : Household) (r : PlanResult) (st2 : Household) :
  plan_day st = Some (r, st2) ->
  within_comfort (hvac st) (setpoint (hvac st)) ->
  comfort_violations (baseline_metrics r) = 0 /\ comfort_violations (greedy_metrics r) = 0.
Proof.
  unfold plan_day. intros H Hw.
  destruct (baseline_policy st) as [[bs bh]|] eqn:Eb; cbn [obind] in H; [|discriminate].
  destruct (simulate_day st bs bh) as [[bm st1]|] eqn:E1; cbn [obind] in H; [|discriminate].
  destruct (greedy_policy st1) as [[gs gh]|] eqn:Eg; cbn [obind] in H; [|discriminate].
  destruct (simulate_day st1 gs gh) as [[gm st2']|] eqn:E2; cbn [obind] in H; [|discriminate].
  injection H as <- _. cbn [baseline_metrics greedy_metrics].
  assert (Hbh : bh = repeat (setpoint (hvac st)) 24).
  { unfold baseline_policy in Eb. destruct (baseline_loop _ _ _); cbn [obind] in Eb;
      [|discriminate]. injection Eb as _ <-. reflexivity. }
  subst bh. split.
  - apply (simulate_day_comfort_zero st bs _ bm st1 E1).
    + intros v Hv. apply repeat_spec in Hv. subst v. exact Hw.
    + left. rewrite repeat_length. apply le_n.
  - destruct (simulate_day_frame_hvac _ _ _ _ _ E1) as [Hmin [Hmax _]].
    assert (Hsp : setpoint (hvac st1) = setpoint (hvac st)).
    { destruct (simulate_day_setpoint _ _ _ _ _ E1) as [Hs|Hs]; [exact Hs|].
      apply repeat_spec in Hs. exact Hs. }
    destruct (greedy_policy_setpoints _ _ _ Eg) as [Hlen Hv].
    apply (simulate_day_comfort_zero st1 gs gh gm st2' E2).
    + intros v Hin. destruct Hw as [Hw1 Hw2].
      unfold within_comfort. rewrite Hmin, Hmax.
      destruct (Hv v Hin) as [->| ->]; rewrite Hsp; [split; assumption|rewrite Hmax].
      destruct (py_min_between (maxTemp (hvac st)) (setpoint (hvac st)) Hw2) as [L U].
      split; [eapply Qle_trans; [exact Hw1 | exact L] | exact U].
    + left. rewrite Hlen. apply le_n.
Qed.

Lemma plan_day_comfort_witness :
  exists r st2,
    plan_day (make_default_env 600 "summer") = Some (r, st2) /\
    comfort_violations (baseline_metrics r) = 0 /\ comfort_violations (greedy_metrics r) = 0.
Proof.
  destruct (plan_day (make_default_env 600 "summer")) as [[r st2]|] eqn:E;
    [|vm_compute in E; discriminate].
  exists r, st2. split; [reflexivity|].
  apply (plan_day_comfort (make_default_env 600 "summer") r st2 E).
  unfold within_comfort. split; vm_compute; discriminate.
Defined.

(** X9: the greedy plan of [plan_day] is the one [_greedy_policy] computes
    on the household as it was before the baseline day was simulated: the
    baseline simulation changes nothing the greedy policy reads. *)
Theorem plan_day_greedy_unaffected (st : Household) (r : PlanResult) (st2 : Household) :
  plan_day st = Some (r, st2) ->
  greedy_policy st = Some (greedy_schedule r, greedy_hvac_sp r).
Proof.
  unfold plan_day. intros H.
  destruct (baseline_policy st) as [[bs bh]|] eqn:Eb; cbn [obind] in H; [|discriminate].
  destruct (simulate_day st bs bh) as [[bm st1]|] eqn:E1; cbn [obind] in H; [|discriminate].
  destruct (greedy_policy st1) as [[gs gh]|] eqn:Eg; cbn [obind] in H; [|discriminate].
  destruct (simulate_day st1 gs gh) as [[gm st2']|] eqn:E2; cbn [obind] in H; [|discriminate].
  injection H as <- _. cbn [greedy_schedule greedy_hvac_sp].
  assert (Hbh : bh = repeat (setpoint (hvac st)) 24).
  { unfold baseline_policy in Eb. destruct (baseline_loop _ _ _); cbn [obind] in Eb;
      [|discriminate]. injection Eb as _ <-. reflexivity. }
  subst bh. rewrite <- Eg. symmetry.
  destruct (simulate_day_inv _ _ _ _ _ E1) as [s [_ [Ea [_ [Et _]]]]].
  destruct (simulate_day_frame_hvac _ _ _ _ _ E1) as [_ [Hmax _]].
  apply greedy_policy_congr.
  - exact Et.
  - rewrite Ea, static_apply_schedule, static_reset. reflexivity.
  - destruct (simulate_day_setpoint _ _ _ _ _ E1) as [Hs|Hs]; [exact Hs|].
    apply repeat_spec in Hs. exact Hs.
  - exact Hmax.
Qed.

Lemma plan_day_greedy_unaffected_witness :
  exists r st2,
    plan_day (make_default_env 600 "winter") = Some (r, st2) /\
    greedy_policy (make_default_env 600 "winter") = Some (greedy_schedule r, greedy_hvac_sp r).
Proof.
  destruct (plan_day (make_default_env 600 "winter")) as [[r st2]|] eqn:E;
    [|vm_compute in E; discriminate].
  exists r, st2. split; [reflexivity|].
  exact (plan_day_greedy_unaffected (make_default_env 600 "winter") r st2 E).
Defined.

(** X10: after a simulated day the appliances keep their names and order;
    an appliance is marked scheduled exactly when it has a start, its two
    start attributes agree, and it is scheduled exactly when the schedule
    lists its name and no appliance before it has the same name (so a later
    appliance sharing a name is never scheduled). *)
Theorem simulate_day_schedule_flags (st : Household) (schedule : Schedule) (sp : list Q)
    (m : Metrics) (st' : Household) :
  simulate_day st schedule sp = Some (m, st') ->
  map name (appliances st') = map name (appliances st) /\
  forall i a, nth_error (appliances st') i = Some a ->
    (isScheduled a = true <-> exists h, scheduled_start a = Some h) /\
    scheduledStart a = scheduled_start a /\
    (isScheduled a = true <->
       In (name a) (scheduled_names schedule) /\
       ~ In (name a) (firstn i (map name (appliances st)))).
Proof.
  intros H. destruct (simulate_day_inv _ _ _ _ _ H) as [s [_ [Ea _]]].
  assert (Hn : map name (appliances st') = map name (appliances st)).
  { rewrite Ea, names_apply_schedule, map_map. reflexivity. }
  split; [exact Hn|].
  intros i a Ha.
  pose proof (flags_inv_apply schedule _ [] (flags_inv_reset (appliances st))) as F.
  rewrite <- Ea in F. destruct (F i a Ha) as [F1 [F2 F3]].
  rewrite Hn in F1. split; [exact F2|]. split; [exact F3|]. exact F1.
Qed.

(** The default household with a second dishwasher. *)
Lemma simulate_day_schedule_flags_witness :
  exists m st',
    simulate_day (with_appliances (make_default_env 600 "standard")
                    (default_appliances ++ [dishwasher])) fixed_schedule [] = Some (m, st') /\
    forall a, nth_error (appliances st') 3 = Some a -> isScheduled a = false.
Proof.
  destruct (simulate_day (with_appliances (make_default_env 600 "standard")
                    (default_appliances ++ [dishwasher])) fixed_schedule []) as [[m st']|] eqn:E;
    [|vm_compute in E; discriminate].
  exists m, st'. split; [reflexivity|]. intros a Ha.
  destruct (proj2 (simulate_day_schedule_flags _ _ _ _ _ E) 3%nat a Ha) as [_ [_ F]].
  destruct (isScheduled a) eqn:S; [|reflexivity].
  exfalso. destruct (proj1 F eq_refl) as [_ S']. apply S'.
  assert (Hn : name a = "Dishwasher"%string).
  { pose proof (proj1 (simulate_day_schedule_flags _ _ _ _ _ E)) as Hn.
    pose proof (map_nth_error name 3 _ Ha) as Hm. rewrite Hn in Hm.
    assert (L : nth_error (map name (appliances (with_appliances (make_default_env 600 "standard")
                    (default_appliances ++ [dishwasher])))) 3 = Some "Dishwasher"%string)
      by reflexivity.
    rewrite L in Hm. injection Hm as Hm. symmetry. exact Hm. }
  rewrite Hn. vm_compute. left. reflexivity.
Defined.

(** X11: marking an appliance with [schedule_appliance] before simulating
    a day changes nothing: [simulate_day] first resets every appliance's
    scheduling state. *)
Theorem schedule_appliance_reset (st : Household) (l1 l2 : list Appliance) (a : Appliance)
    (h : Z) (schedule : Schedule) (sp : list Q) :
  simulate_day (with_appliances st (l1 ++ schedule_appliance a h :: l2)) schedule sp =
  simulate_day (with_appliances st (l1 ++ a :: l2)) schedule sp.
Proof.
  unfold simulate_day, with_appliances. cbn [appliances].
  rewrite !map_app. cbn [map].
  change (reset_appliance (schedule_appliance a h)) with (reset_appliance a).
  reflexivity.
Qed.

(** X12: with a pricing table built by [TOUPricing], [_build_explanations]
    returns one sentence per appliance listed at some hour of the greedy
    schedule, in the household's order, each opening with
    "<name> was scheduled at hour ", followed by the HVAC sentence. *)
Theorem build_explanations_shape (st : Household) (pt : string) (schedule : Schedule)
    (gm : list (string * PyVal)) :
  tou_pricing st = new_TOUPricing pt ->
  exists l,
    build_explanations st schedule gm = Some (l ++ [hvac_explanation]) /\
    Forall2 (fun a s => exists rest, s = (name a ++ " was scheduled at hour " ++ rest)%string)
      (filter (listed_in_day schedule) (appliances st)) l.
Proof.
  intros Ht. unfold build_explanations. rewrite (tou_prices_any st pt Ht). cbn [obind].
  destruct (explanation_threshold_24 (map (band_price pt) (py_range 0 24))) as [thr Ethr].
  { rewrite length_map, py_range_0, length_map, length_seq. reflexivity. }
  rewrite Ethr. cbn [obind].
  destruct (explanations_fold (map (band_price pt) (py_range 0 24)) (Some thr)
              (get_daily_budget st) schedule gm (appliances st) []) as [l [E F]].
  exists l. rewrite E. split; [reflexivity | exact F].
Qed.

Lemma build_explanations_shape_witness :
  exists l,
    build_explanations (make_default_env 600 "summer") fixed_schedule [] =
      Some (l ++ [hvac_explanation]) /\
    Forall2 (fun a s => exists rest, s = (name a ++ " was scheduled at hour " ++ rest)%string)
      (filter (listed_in_day fixed_schedule) (appliances (make_default_env 600 "summer"))) l.
Proof.
  exact (build_explanations_shape (make_default_env 600 "summer") "summer" fixed_schedule []
           eq_refl).
Defined.

(** X13: for a pricing table built by [TOUPricing], [get_daily_schedule]
    returns the rows of the hours 0 to 23 in order, and their prices are
    exactly the household's [tou_prices]. *)
Theorem get_daily_schedule_rows (st : Household) (pt : string) :
  tou_pricing st = new_TOUPricing pt ->
  exists rows,
    get_daily_schedule (tou_pricing st) = Some rows /\
    map fst rows = py_range 0 24 /\
    tou_prices st = Some (map snd rows).
Proof.
  intros Ht. rewrite (tou_prices_any st pt Ht). unfold get_daily_schedule. rewrite Ht.
  rewrite (map_opt_pure _ (band_price pt)).
  - cbn [obind]. rewrite combine_map_self.
    exists (map (fun x => (x, band_price pt x)) (py_range 0 24)).
    rewrite !map_map. split; [reflexivity|]. split; [apply map_id | reflexivity].
  - intros h Hh. apply In_py_range_iff in Hh. apply get_price_hour_any. exact Hh.
Qed.

Lemma get_daily_schedule_rows_witness :
  exists rows,
    get_daily_schedule (tou_pricing (make_default_env 600 "winter")) = Some rows /\
    map fst rows = py_range 0 24 /\
    tou_prices (make_default_env 600 "winter") = Some (map snd rows).
Proof.
  exact (get_daily_schedule_rows (make_default_env 600 "winter") "winter" eq_refl).
Defined.

(** X14: in a household whose appliance names are distinct, the appliances
    left unscheduled after a simulated day are, in order, those whose name
    the schedule does not list. *)
Theorem simulate_day_unscheduled (st : Household) (schedule : Schedule) (sp : list Q)
    (m : Metrics) (st' : Household) :
  NoDup (map name (appliances st)) ->
  simulate_day st schedule sp = Some (m, st') ->
  map name (get_unscheduled_appliances st') =
  filter (fun n => negb (str_in n (scheduled_names schedule))) (map name (appliances st)).
Proof.
  intros Hd H. destruct (simulate_day_inv _ _ _ _ _ H) as [s [_ [Ea _]]].
  assert (Hn : map name (appliances st') = map name (appliances st)).
  { rewrite Ea, names_apply_schedule, map_map. reflexivity. }
  pose proof (flags_inv_apply schedule _ [] (flags_inv_reset (appliances st))) as F.
  rewrite <- Ea in F.
  unfold get_unscheduled_appliances. rewrite <- Hn. apply filter_names.
  intros a Ha. destruct (In_nth_error _ _ Ha) as [i Hi].
  destruct (F i a Hi) as [F1 _]. rewrite Hn in F1. cbn [app] in F1.
  assert (Hf : ~ In (name a) (firstn i (map name (appliances st)))).
  { apply NoDup_nth_firstn; [exact Hd|]. rewrite <- Hn. apply map_nth_error. exact Hi. }
  destruct (isScheduled a) eqn:S; destruct (str_in (name a) (scheduled_names schedule)) eqn:T;
    try reflexivity.
  - exfalso. destruct (proj1 F1 eq_refl) as [S' _]. apply str_in_iff in S'. congruence.
  - exfalso. apply str_in_iff in T. assert (C : false = true) by (apply F1; auto). discriminate.
Qed.

Lemma simulate_day_unscheduled_witness :
  exists m st',
    simulate_day (make_default_env 600 "standard") [(0, ["EV Charger"%string])] [] = Some (m, st') /\
    map name (get_unscheduled_appliances st') = ["Dishwasher"%string; "Washer/Dryer"%string].
Proof.
  destruct (simulate_day (make_default_env 600 "standard") [(0, ["EV Charger"%string])] [])
    as [[m st']|] eqn:E; [|vm_compute in E; discriminate].
  exists m, st'. split; [reflexivity|].
  assert (Hd : NoDup (map name (appliances (make_default_env 600 "standard")))).
  { change (map name (appliances (make_default_env 600 "standard")))
      with ["Dishwasher"%string; "Washer/Dryer"%string; "EV Charger"%string].
    repeat constructor; simpl; intuition discriminate. }
  rewrite (simulate_day_unscheduled (make_default_env 600 "standard") [(0, ["EV Charger"%string])]
             [] m st' Hd E).
  reflexivity.
Defined.
